(** * InfoFetch: the storefront scraper ([src/scraper.py])

    A shallow embedding of [ShopifyStoreScraper] and the properties of its
    extraction pipeline.

    Conventions of the model.
    - A Python [str] is a Rocq [string] holding its UTF-8 bytes.  [len]
      counts characters and [str.strip] removes the white space of Unicode.
      The classes of [re] ([\s], [\d], [\w], [\b], the letters under
      [re.IGNORECASE]) and [str.lower], [str.title] are those of the ASCII
      range: on ASCII text they are the ones of Python, and a property that
      rests on them for other text says so by a hypothesis.
    - A Python [float] is a [pyfloat]: a finite value, a negative zero, an
      infinity or NaN, compared as Python compares them.
    - A Python [dict] used as a map is a [gmap]; a dict literal of fixed
      shape is a [Record].
    - The libraries the scraper calls and the network are not part of the
      repository: [requests], the HTML parser, [trafilatura], the JSON
      decoder, [urljoin] and [float] are the fields of a [World]; the DOM
      queries of BeautifulSoup and the matching of [re] are written out. *)

From Stdlib Require Import String Ascii List Arith ZArith QArith Lia Lqa Bool.
From stdpp Require Import base option list strings gmap.
Import ListNotations.

Set Warnings "-register-all".

Local Open Scope string_scope.
Local Open Scope list_scope.
Local Open Scope nat_scope.

(** ** Python strings *)

Module PyStr.

Definition chars (s : string) : list ascii := list_ascii_of_string s.
Definition of_chars (l : list ascii) : string := string_of_list_ascii l.

Definition code (a : ascii) : nat := nat_of_ascii a.

(** [str.isspace] on the ASCII range: TAB..CR, FS..US and the space. *)
Definition is_space (a : ascii) : bool :=
  let n := code a in
  ((9 <=? n) && (n <=? 13)) || ((28 <=? n) && (n <=? 32)).

Definition is_digit (a : ascii) : bool :=
  let n := code a in (48 <=? n) && (n <=? 57).

Definition is_upper (a : ascii) : bool :=
  let n := code a in (65 <=? n) && (n <=? 90).

Definition is_lower (a : ascii) : bool :=
  let n := code a in (97 <=? n) && (n <=? 122).

Definition is_alpha (a : ascii) : bool := is_upper a || is_lower a.

(** The class [\w]. *)
Definition is_word (a : ascii) : bool :=
  is_alpha a || is_digit a || (code a =? 95).

Definition lower_char (a : ascii) : ascii :=
  if is_upper a then ascii_of_nat (code a + 32) else a.

Definition upper_char (a : ascii) : ascii :=
  if is_lower a then ascii_of_nat (code a - 32) else a.

Definition lower (s : string) : string := of_chars (map lower_char (chars s)).

(** The white space of Unicode beyond ASCII, in UTF-8: U+0085 and U+00A0
    have two bytes; U+1680, U+2000..U+200A, U+2028, U+2029, U+202F, U+205F
    and U+3000 have three. *)
Definition is_space2 (a b : ascii) : bool :=
  (code a =? 194) && ((code b =? 133) || (code b =? 160)).

Definition is_space3 (a b c : ascii) : bool :=
  ((code a =? 225) && (code b =? 154) && (code c =? 128))
  || ((code a =? 226) && (code b =? 128)
      && (((128 <=? code c) && (code c <=? 138))
          || (code c =? 168) || (code c =? 169) || (code c =? 175)))
  || ((code a =? 226) && (code b =? 129) && (code c =? 159))
  || ((code a =? 227) && (code b =? 128) && (code c =? 128)).

(** [s.lstrip()] on the bytes. *)
Fixpoint lstrip_chars (l : list ascii) : list ascii :=
  match l with
  | [] => []
  | a :: l1 =>
      if is_space a then lstrip_chars l1
      else
        match l1 with
        | [] => l
        | b :: l2 =>
            if is_space2 a b then lstrip_chars l2
            else
              match l2 with
              | [] => l
              | c :: l3 => if is_space3 a b c then lstrip_chars l3 else l
              end
        end
  end.

(** [s.rstrip()] on the bytes in reverse: the last byte comes first. *)
Fixpoint rstrip_reversed (l : list ascii) : list ascii :=
  match l with
  | [] => []
  | c :: l1 =>
      if is_space c then rstrip_reversed l1
      else
        match l1 with
        | [] => l
        | b :: l2 =>
            if is_space2 b c then rstrip_reversed l2
            else
              match l2 with
              | [] => l
              | a :: l3 => if is_space3 a b c then rstrip_reversed l3 else l
              end
        end
  end.

Definition strip_chars (l : list ascii) : list ascii :=
  rev (rstrip_reversed (rev (lstrip_chars l))).

(** [s.strip()] *)
Definition strip (s : string) : string := of_chars (strip_chars (chars s)).

(** A byte that continues a character of several bytes. *)
Definition is_continuation (a : ascii) : bool :=
  (128 <=? code a) && (code a <? 192).

(** [len(s)]: the number of characters, one for each byte that does not
    continue a character. *)
Definition len (s : string) : nat :=
  length (List.filter (fun a => negb (is_continuation a)) (chars s)).

(** [s.isascii()] *)
Definition is_ascii (s : string) : bool :=
  forallb (fun a => code a <? 128) (chars s).

Fixpoint is_prefix (p l : list ascii) : bool :=
  match p, l with
  | [], _ => true
  | a :: p', b :: l' => Ascii.eqb a b && is_prefix p' l'
  | _ :: _, [] => false
  end.

(** [s.startswith(p)] *)
Definition startswith (s p : string) : bool := is_prefix (chars p) (chars s).

Fixpoint contains_chars (p l : list ascii) : bool :=
  is_prefix p l ||
  match l with
  | [] => false
  | _ :: l' => contains_chars p l'
  end.

(** [sub in s] *)
Definition contains (sub s : string) : bool := contains_chars (chars sub) (chars s).

(** [s.replace(old, new)] for a non-empty [old]: the occurrences are
    replaced from the left, without overlap. *)
Fixpoint replace_chars (fuel : nat) (old new l : list ascii) : list ascii :=
  match fuel with
  | 0 => l
  | S fuel' =>
      match l with
      | [] => []
      | a :: l' =>
          if is_prefix old l
          then new ++ replace_chars fuel' old new (drop (length old) l)
          else a :: replace_chars fuel' old new l'
      end
  end.

Definition replace (s old new : string) : string :=
  match chars old with
  | [] => s
  | o => of_chars (replace_chars (String.length s) o (chars new) (chars s))
  end.

(** [s.title()]: the first letter of every run of letters in upper case,
    the rest of the run in lower case. *)
Fixpoint title_chars (prev_cased : bool) (l : list ascii) : list ascii :=
  match l with
  | [] => []
  | a :: l' =>
      if is_lower a then
        (if prev_cased then a else upper_char a) :: title_chars true l'
      else if is_upper a then
        (if prev_cased then lower_char a else a) :: title_chars true l'
      else a :: title_chars false l'
  end.

Definition title (s : string) : string := of_chars (title_chars false (chars s)).

(** [s.split(sep)] for a one-character separator. *)
Fixpoint split_chars (sep : ascii) (cur : list ascii) (l : list ascii) : list string :=
  match l with
  | [] => [of_chars (rev cur)]
  | a :: l' =>
      if Ascii.eqb a sep then of_chars (rev cur) :: split_chars sep [] l'
      else split_chars sep (a :: cur) l'
  end.

Definition split (s : string) (sep : ascii) : list string := split_chars sep [] (chars s).

(** Truthiness of a string: [bool(s)]. *)
Definition nonempty (s : string) : bool :=
  match s with EmptyString => false | _ => true end.

End PyStr.

(** ** Python floats *)

Module PyFloat.

(** A float: a finite value, the negative zero, an infinity or NaN. *)
Inductive pyfloat : Type :=
| FNum (q : Q)
| FNegZero
| FInf (negative : bool)
| FNaN.

Definition is_nan (x : pyfloat) : bool :=
  match x with FNaN => true | _ => false end.

(** The value of a finite float. *)
Definition value (x : pyfloat) : Q :=
  match x with FNum q => q | _ => 0%Q end.

(** [x < y]: false when one of the two is NaN. *)
Definition flt (x y : pyfloat) : bool :=
  match x, y with
  | FNaN, _ | _, FNaN => false
  | FInf true, FInf true => false
  | FInf true, _ => true
  | _, FInf true => false
  | FInf false, _ => false
  | _, FInf false => true
  | _, _ => negb (Qle_bool (value y) (value x))
  end.

(** [x <= y]: false when one of the two is NaN. *)
Definition fle (x y : pyfloat) : bool :=
  negb (is_nan x) && negb (is_nan y) && negb (flt y x).

(** [bool(x)]: false for the two zeros only. *)
Definition nonzero (x : pyfloat) : bool :=
  match x with
  | FNum q => negb (Z.eqb (Qnum q) 0)
  | FNegZero => false
  | _ => true
  end.

(** [float(n)] for an integer: the nearest float, the even one of two
    nearest; [None] stands for the [OverflowError] of an integer that is too
    large. *)
Definition float_of_int (n : Z) : option pyfloat :=
  let a := Z.abs n in
  let bits := (Z.log2 a + 1)%Z in
  if (bits <=? 53)%Z then Some (FNum (inject_Z n))
  else
    let shift := (bits - 53)%Z in
    let m := Z.shiftr a shift in
    let r := Z.land a (Z.ones shift) in
    let half := Z.shiftl 1 (shift - 1) in
    let m' := if (half <? r)%Z || ((r =? half)%Z && Z.odd m) then (m + 1)%Z else m in
    let v := Z.shiftl m' shift in
    if (Z.shiftl 1 1024 <=? v)%Z then None
    else Some (FNum (inject_Z (Z.sgn n * v))).

End PyFloat.

(** ** Regular expressions: the part of [re] the scraper uses

    Greedy backtracking matching, as [re] does it.  Every pattern of the
    scraper has at most one capturing group, so one capture slot is kept.
    The subject is matched byte by byte, and the classes [\s], [\d], [\w],
    the boundary [\b] and the letters under [re.IGNORECASE] are those of
    ASCII: the engine is the one of Python for a subject that is ASCII. *)

Module Re.

Inductive regex : Type :=
| REmpty
| RSet (p : ascii -> bool)
| RCat (r1 r2 : regex)
| RAlt (r1 r2 : regex)
| ROpt (r : regex)
| RStar (r : regex)
| RGroup (r : regex)
| REnd
| RWordB.

Definition span : Type := nat * nat.

(** A match: its span and the span of group 1 when the group took part. *)
Record rmatch_t : Type := MkMatch { m_start : nat; m_end : nat; m_group : option span }.

Section Matching.
(** [ic] is the flag [re.IGNORECASE]; [w] is the subject. *)
Variable ic : bool.
Variable w : list ascii.

Definition cmatch (p : ascii -> bool) (a : ascii) : bool :=
  p a || (ic && (p (PyStr.lower_char a) || p (PyStr.upper_char a))).

(** [$] without [re.MULTILINE]: at the end, or before a final newline. *)
Definition at_end (i : nat) : bool :=
  (length w <=? i) ||
  ((S i =? length w) &&
   match nth_error w i with Some a => Ascii.eqb a "010"%char | None => false end).

Definition word_at (i : nat) : bool :=
  match nth_error w i with Some a => PyStr.is_word a | None => false end.

Definition word_boundary (i : nat) : bool :=
  negb (Bool.eqb (match i with 0 => false | S j => word_at j end) (word_at i)).

Fixpoint rmatch {A : Type} (r : regex) (i : nat) (c : option span)
         (k : nat -> option span -> option A) {struct r} : option A :=
  match r with
  | REmpty => k i c
  | RSet p =>
      match nth_error w i with
      | Some a => if cmatch p a then k (S i) c else None
      | None => None
      end
  | RCat r1 r2 => rmatch r1 i c (fun j c' => rmatch r2 j c' k)
  | RAlt r1 r2 =>
      match rmatch r1 i c k with
      | Some x => Some x
      | None => rmatch r2 i c k
      end
  | ROpt r1 =>
      match rmatch r1 i c k with
      | Some x => Some x
      | None => k i c
      end
  | RStar r1 =>
      (fix loop (fuel : nat) (i : nat) (c : option span) {struct fuel} : option A :=
         match fuel with
         | 0 => k i c
         | S fuel' =>
             match rmatch r1 i c
                     (fun j c' => if i <? j then loop fuel' j c' else None) with
             | Some x => Some x
             | None => k i c
             end
         end) (S (length w)) i c
  | RGroup r1 => rmatch r1 i c (fun j _ => k j (Some (i, j)))
  | REnd => if at_end i then k i c else None
  | RWordB => if word_boundary i then k i c else None
  end.

Definition match_at (r : regex) (i : nat) : option rmatch_t :=
  rmatch r i None (fun j c => Some (MkMatch i j c)).

(** The leftmost match starting at [i] or later. *)
Fixpoint search_from (fuel : nat) (r : regex) (i : nat) : option rmatch_t :=
  match fuel with
  | 0 => None
  | S fuel' =>
      match match_at r i with
      | Some m => Some m
      | None => search_from fuel' r (S i)
      end
  end.

(** The successive matches, left to right, without overlap. *)
Fixpoint matches_from (fuel : nat) (r : regex) (i : nat) : list rmatch_t :=
  match fuel with
  | 0 => []
  | S fuel' =>
      match search_from (S (length w - i)) r i with
      | None => []
      | Some m =>
          m :: matches_from fuel' r
                 (if m_start m <? m_end m then m_end m else S (m_end m))
      end
  end.

Definition slice (s : span) : string :=
  PyStr.of_chars (take (snd s - fst s) (drop (fst s) w)).

Definition whole (m : rmatch_t) : string := slice (m_start m, m_end m).

(** [m.group(1)]: [None] when the group took no part in the match. *)
Definition group1 (m : rmatch_t) : option string := slice <$> m_group m.

(** The text left when every match is cut out: [re.sub(r, '', w)]. *)
Fixpoint cut (ms : list rmatch_t) (i : nat) : list ascii :=
  match ms with
  | [] => drop i w
  | m :: ms' => take (m_start m - i) (drop i w) ++ cut ms' (m_end m)
  end.

End Matching.

Fixpoint has_group (r : regex) : bool :=
  match r with
  | RGroup _ => true
  | RCat r1 r2 | RAlt r1 r2 => has_group r1 || has_group r2
  | ROpt r1 | RStar r1 => has_group r1
  | _ => false
  end.

(** A compiled pattern: [re.compile(r, flags)]. *)
Record pattern : Type := Pattern { p_regex : regex; p_ignorecase : bool }.

(** [re.search(p, s)] *)
Definition search (p : pattern) (s : string) : option rmatch_t :=
  let w := PyStr.chars s in
  search_from (p_ignorecase p) w (S (length w)) (p_regex p) 0.

Definition matches (p : pattern) (s : string) : bool :=
  match search p s with Some _ => true | None => false end.

(** [re.search(p, s).group(1)], for a successful search. *)
Definition search_group1 (p : pattern) (s : string) : option (option string) :=
  group1 (PyStr.chars s) <$> search p s.

(** [re.findall(p, s)]: the list of the matches, or, when the pattern has a
    group, the list of what the group captured, [''] for a group that took
    no part. *)
Definition findall (p : pattern) (s : string) : list string :=
  let w := PyStr.chars s in
  let ms := matches_from (p_ignorecase p) w (S (length w)) (p_regex p) 0 in
  if has_group (p_regex p)
  then map (fun m => default "" (group1 w m)) ms
  else map (whole w) ms.

(** [re.sub(p, '', s)] *)
Definition sub_empty (p : pattern) (s : string) : string :=
  let w := PyStr.chars s in
  PyStr.of_chars (cut w (matches_from (p_ignorecase p) w (S (length w)) (p_regex p) 0) 0).

(** *** Pattern syntax *)

Definition chr (a : ascii) : regex := RSet (Ascii.eqb a).

Fixpoint lit_chars (l : list ascii) : regex :=
  match l with
  | [] => REmpty
  | [a] => chr a
  | a :: l' => RCat (chr a) (lit_chars l')
  end.

Definition lit (s : string) : regex := lit_chars (PyStr.chars s).

Definition one_of (s : string) : regex :=
  RSet (fun a => existsb (Ascii.eqb a) (PyStr.chars s)).

Definition plus (r : regex) : regex := RCat r (RStar r).

Fixpoint times (n : nat) (r : regex) : regex :=
  match n with
  | 0 => REmpty
  | 1 => r
  | S n' => RCat r (times n' r)
  end.

Fixpoint seq (rs : list regex) : regex :=
  match rs with
  | [] => REmpty
  | [r] => r
  | r :: rs' => RCat r (seq rs')
  end.

Fixpoint alt (rs : list regex) : regex :=
  match rs with
  | [] => REmpty
  | [r] => r
  | r :: rs' => RAlt r (alt rs')
  end.

Definition space : regex := RSet PyStr.is_space.
Definition digit : regex := RSet PyStr.is_digit.
(** [.]: any character but a newline. *)
Definition dot : regex := RSet (fun a => negb (Ascii.eqb a "010"%char)).

End Re.

(** ** The patterns of [src/scraper.py] *)

Module Patterns.
Import Re.

(** The class of the handles: any character but a slash, white space, a
    double quote and a single quote. *)
Definition handle_char : regex :=
  RSet (fun a => negb (Ascii.eqb a "/"%char || PyStr.is_space a ||
                       Ascii.eqb a (ascii_of_nat 34) || Ascii.eqb a "'"%char)).

(** [host\.com/(H+)] for the class [H] of the handles, searched with
    [re.IGNORECASE]. *)
Definition profile_link (host : string) : pattern :=
  Pattern (seq [lit host; lit ".com/"; RGroup (plus handle_char)]) true.

(** [@([a-zA-Z0-9_.]+)] *)
Definition at_handle : pattern :=
  Pattern (seq [chr "@";
                RGroup (plus (RSet (fun a => PyStr.is_word a || Ascii.eqb a "."%char)))])
          true.

(** [tiktok\.com/@(H+)] *)
Definition tiktok_link : pattern :=
  Pattern (seq [lit "tiktok.com/@"; RGroup (plus handle_char)]) true.

(** [[-.\s]?] *)
Definition opt_sep : regex :=
  ROpt (RSet (fun a => Ascii.eqb a "-"%char || Ascii.eqb a "."%char || PyStr.is_space a)).

(** [phone_pattern]: [(\+?1?[-.\s]?)?\(?\d{3}\)?[-.\s]?\d{3}[-.\s]?\d{4}] *)
Definition phone_pattern : pattern :=
  Pattern (seq [ROpt (RGroup (seq [ROpt (chr "+"); ROpt (chr "1"); opt_sep]));
                ROpt (chr "("); times 3 digit; ROpt (chr ")"); opt_sep;
                times 3 digit; opt_sep; times 4 digit])
          false.

(** [email_pattern]:
    [\b[A-Za-z0-9._%+-]+@[A-Za-z0-9.-]+\.[A-Z|a-z]{2,}\b] *)
Definition email_pattern : pattern :=
  let alnum := fun a => PyStr.is_alpha a || PyStr.is_digit a in
  let user := RSet (fun a => alnum a || existsb (Ascii.eqb a) (PyStr.chars "._%+-")) in
  let host := RSet (fun a => alnum a || existsb (Ascii.eqb a) (PyStr.chars ".-")) in
  let tld := RSet (fun a => PyStr.is_alpha a || Ascii.eqb a "|"%char) in
  Pattern (seq [RWordB; plus user; chr "@"; plus host; chr "."; tld; plus tld; RWordB])
          false.

(** The suffix cut from the title:
    [\s*[-–|]\s*(Shop|Store|Online|eCommerce).*$] with [re.IGNORECASE]. *)
Definition title_suffix : pattern :=
  Pattern (seq [RStar space;
                alt [chr "-"; lit "–"; chr "|"];
                RStar space;
                RGroup (alt [lit "Shop"; lit "Store"; lit "Online"; lit "eCommerce"]);
                RStar dot; REnd])
          true.

(** [re.compile(s)] and [re.compile(s, re.I)] for a pattern [s] without
    special characters. *)
Definition literal (s : string) : pattern := Pattern (lit s) false.
Definition literal_i (s : string) : pattern := Pattern (lit s) true.

(** [faq|question|accordion] with [re.I] *)
Definition faq_class : pattern :=
  Pattern (alt [lit "faq"; lit "question"; lit "accordion"]) true.

End Patterns.

(** ** The parsed document: what BeautifulSoup gives the scraper *)

Module Dom.

(** A node is a run of text or an element with its attributes and children;
    the parsed document itself is the element at the root.  The parser
    gives tag and attribute names in lower case. *)
Inductive node : Type :=
| Text (s : string)
| Tag (name : string) (attrs : list (string * string)) (children : list node).

(** A node of the document, with what the navigation needs around it. *)
Record located : Type :=
  Located { elem : node; parent : node; next_siblings : list node }.

(** The nodes below [n], in document order. *)
Fixpoint descendants (n : node) : list located :=
  match n with
  | Text _ => []
  | Tag _ _ cs =>
      (fix walk (l : list node) : list located :=
         match l with
         | [] => []
         | c :: l' => Located c n l' :: descendants c ++ walk l'
         end) cs
  end.

(** [n.get_text()] *)
Fixpoint get_text (n : node) : string :=
  match n with
  | Text s => s
  | Tag _ _ cs =>
      (fix cat (l : list node) : string :=
         match l with
         | [] => ""
         | c :: l' => get_text c +:+ cat l'
         end) cs
  end.

Fixpoint assoc (k : string) (l : list (string * string)) : option string :=
  match l with
  | [] => None
  | (k', v) :: l' => if String.eqb k k' then Some v else assoc k l'
  end.

(** [tag.get(k)] *)
Definition get (k : string) (n : node) : option string :=
  match n with
  | Tag _ attrs _ => assoc k attrs
  | Text _ => None
  end.

Definition is_tag (names : list string) (n : node) : bool :=
  match n with
  | Tag name _ _ => existsb (String.eqb name) names
  | Text _ => false
  end.

Definition is_element (n : node) : bool :=
  match n with Tag _ _ _ => true | Text _ => false end.

(** The attribute filters of [find_all]: [k=True], [k='v'] and
    [k=re.compile(..)].  A compiled pattern is searched in the value; for
    [class_] the value is the list of the classes, and these patterns,
    having no white space, are found in the list exactly when they are
    found in one of the classes. *)
Definition has_attr (k : string) (n : node) : bool :=
  match get k n with Some _ => true | None => false end.

Definition attr_is (k v : string) (n : node) : bool :=
  match get k n with Some v' => String.eqb v v' | None => false end.

Definition attr_matches (k : string) (p : Re.pattern) (n : node) : bool :=
  match get k n with Some v => Re.matches p v | None => false end.

(** [n.find_all(names, ..)]: the elements below [n] named in [names] that
    pass the filter, in document order, each with its place. *)
Definition find_all_located (names : list string) (cond : node -> bool) (n : node)
  : list located :=
  List.filter (fun d => is_tag names (elem d) && cond (elem d)) (descendants n).

Definition find_all (names : list string) (cond : node -> bool) (n : node) : list node :=
  map elem (find_all_located names cond n).

(** [n.find(names, ..)] *)
Definition find (names : list string) (cond : node -> bool) (n : node) : option node :=
  head (find_all names cond n).

(** [n.find(class_=p)]: an element of any name. *)
Definition find_by_class (p : Re.pattern) (n : node) : option node :=
  head (map elem (List.filter (fun d => is_element (elem d) && attr_matches "class" p (elem d))
                              (descendants n))).

(** [n.find(text=p)]: the first run of text that [p] is found in. *)
Definition find_text (p : Re.pattern) (n : node) : option located :=
  head (List.filter (fun d => match elem d with
                              | Text s => Re.matches p s
                              | Tag _ _ _ => false
                              end) (descendants n)).

(** [q.find_next_sibling(names)]: the first of the siblings after [q] that
    is an element named in [names]. *)
Definition find_next_sibling (names : list string) (q : located) : option node :=
  head (List.filter (is_tag names) (next_siblings q)).

End Dom.

(** ** Decoded JSON: what [response.json()] gives *)

Module Json.
Import PyFloat.

(** A number is an [int] or a [float], as the decoder tells them apart. *)
Inductive json : Type :=
| JNull
| JBool (b : bool)
| JInt (n : Z)
| JFloat (x : pyfloat)
| JStr (s : string)
| JArr (l : list json)
| JObj (o : list (string * json)).
(** [JObj] holds the items of the dictionary, each key once. *)

(** [bool(v)] *)
Definition truthy (v : json) : bool :=
  match v with
  | JNull => false
  | JBool b => b
  | JInt n => negb (Z.eqb n 0)
  | JFloat x => nonzero x
  | JStr s => PyStr.nonempty s
  | JArr l => match l with [] => false | _ => true end
  | JObj o => match o with [] => false | _ => true end
  end.

Fixpoint assoc (k : string) (o : list (string * json)) : option json :=
  match o with
  | [] => None
  | (k', v) :: o' => if String.eqb k k' then Some v else assoc k o'
  end.

End Json.

(** ** Exceptions, the network and the libraries *)

(** The exceptions the scraper tells apart: [requests.RequestException]
    (the network errors) and the rest. *)
Inductive exn : Type :=
| RequestException
| ValueError
| TypeError
| AttributeError
| UnboundLocalError
| OverflowError.

Definition is_request_exception (e : exn) : bool :=
  match e with RequestException => true | _ => false end.

Inductive result (A : Type) : Type :=
| Ok (a : A)
| Exn (e : exn).
Arguments Ok {A} a.
Arguments Exn {A} e.

(** [requests.Response]: the status and the body. *)
Record response : Type := Response { status_code : Z; content : string }.

(** What lies outside the repository.  A request is answered from its URL
    and from the requests made before it, so a server may change its answer
    from one request to the next. *)
Record World : Type := {
  (** [self.session.get(url, timeout=self.timeout)] *)
  session_get : list string -> string -> result response;
  (** [BeautifulSoup(content, 'html.parser')] *)
  html_parser : string -> result Dom.node;
  (** [response.json()] *)
  response_json : string -> result Json.json;
  (** [trafilatura.extract(content)] *)
  trafilatura_extract : string -> result (option string);
  (** [urljoin(base, url)] *)
  urljoin : string -> string -> result string;
  (** [float(s)] for a string: [None] stands for [ValueError]. *)
  float_of_str : string -> option PyFloat.pyfloat;
  (** How an f-string shows a JSON value that is not a string. *)
  str_of : Json.json -> string
}.

(** A computation of the scraper: it may raise, and it extends the log of
    the URLs requested so far. *)
Definition M (A : Type) : Type := list string -> result A * list string.

Definition ret {A} (a : A) : M A := fun log => (Ok a, log).

Definition raise {A} (e : exn) : M A := fun log => (Exn e, log).

Definition bind {A B} (m : M A) (f : A -> M B) : M B :=
  fun log =>
    match m log with
    | (Ok a, log') => f a log'
    | (Exn e, log') => (Exn e, log')
    end.

(** [try: m except Exception as e: h e] *)
Definition try_except {A} (m : M A) (h : exn -> M A) : M A :=
  fun log =>
    match m log with
    | (Ok a, log') => (Ok a, log')
    | (Exn e, log') => h e log'
    end.

Definition lift {A} (r : result A) : M A := fun log => (r, log).

Notation "'let*' x ':=' m 'in' k" := (bind m (fun x => k))
  (at level 10, x name, m at level 200, k at level 200).

(** The pure part of [result]. *)
Definition rbind {A B} (r : result A) (f : A -> result B) : result B :=
  match r with
  | Ok a => f a
  | Exn e => Exn e
  end.

Notation "'let+' x ':=' r 'in' k" := (rbind r (fun x => k))
  (at level 10, x name, r at level 200, k at level 200).

Fixpoint rmap {A B} (f : A -> result B) (l : list A) : result (list B) :=
  match l with
  | [] => Ok []
  | a :: l' => let+ b := f a in let+ bs := rmap f l' in Ok (b :: bs)
  end.

(** A request, written to the log. *)
Definition http_get (w : World) (url : string) : M response :=
  fun log => (session_get w log url, log ++ [url]).

(** ** The scraper: [class ShopifyStoreScraper] *)

Module Scraper.
Import PyFloat Json.

(** *** The records of the result *)

(** An entry of [products]. *)
Record product : Type := Product {
  p_id : json;
  p_title : json;
  p_handle : json;
  p_vendor : json;
  p_product_type : json;
  p_tags : list string;
  p_price_range : gmap string pyfloat;
  p_available : bool;
  p_images : list json;
  p_url : string
}.

(** An entry of [hero_products]. *)
Record hero_product : Type := HeroProduct {
  h_title : string;
  h_url : string;
  h_image : string;
  h_price : string
}.

(** An entry of [faqs]. *)
Record faq : Type := Faq { question : string; answer : string }.

(** An entry of [social_handles]. *)
Record social_link : Type := SocialLink { handle : string; url : string }.

(** An entry of [important_links]. *)
Record important_link : Type := ImportantLink {
  category : string;
  l_title : string;
  l_url : string
}.

(** A value of [contact_details]: a list of strings or the address. *)
Inductive contact_value : Type :=
| CList (l : list string)
| CStr (s : string).

(** A value of the dictionary [insights]. *)
Inductive value : Type :=
| VStr (s : string)
| VProducts (l : list product)
| VHeroProducts (l : list hero_product)
| VFaqs (l : list faq)
| VSocial (d : gmap string social_link)
| VContact (d : gmap string contact_value)
| VLinks (l : list important_link).

(** *** Helpers for the Python idioms *)

(** [d.get(k, default)] on a decoded value: only a dictionary has [get]. *)
Definition dict_get (k : string) (dflt : json) (v : json) : result json :=
  match v with
  | JObj o => Ok (default dflt (assoc k o))
  | _ => Exn AttributeError
  end.

(** [for x in v]: a list gives its elements, a dictionary its keys, a
    string its characters; nothing else can be iterated. *)
Definition py_iter (v : json) : result (list json) :=
  match v with
  | JArr l => Ok l
  | JObj o => Ok (map (fun kv => JStr (fst kv)) o)
  | JStr s => Ok (map (fun a => JStr (String a EmptyString)) (PyStr.chars s))
  | _ => Exn TypeError
  end.

(** [float(v)] *)
Definition py_float (w : World) (v : json) : result pyfloat :=
  match v with
  | JInt n => match float_of_int n with Some x => Ok x | None => Exn OverflowError end
  | JFloat x => Ok x
  | JBool b => Ok (FNum (if b then 1%Q else 0%Q))
  | JStr s => match float_of_str w s with Some x => Ok x | None => Exn ValueError end
  | _ => Exn TypeError
  end.

(** [min(l)] and [max(l)] for a list with head [x]: an element takes the
    place of the one kept when it is less, for [max] greater, than it. *)
Definition py_min (x : pyfloat) (l : list pyfloat) : pyfloat :=
  fold_left (fun cur y => if flt y cur then y else cur) l x.

Definition py_max (x : pyfloat) (l : list pyfloat) : pyfloat :=
  fold_left (fun cur y => if flt cur y then y else cur) l x.

(** [list(set(l))]: the elements of [l] without repetition.  Python leaves
    the order open; the model lists them by first occurrence. *)
Fixpoint list_set (seen : list string) (l : list string) : list string :=
  match l with
  | [] => []
  | x :: l' =>
      if existsb (String.eqb x) seen then list_set seen l'
      else x :: list_set (x :: seen) l'
  end.

(** How an f-string shows a value. *)
Definition fmt (w : World) (v : json) : string :=
  match v with
  | JStr s => s
  | JNull => "None"
  | _ => str_of w v
  end.

Section WithWorld.
Variable w : World.

(** [_is_shopify_store]: only used for a warning. *)
Definition _is_shopify_store (soup : Dom.node) (html_content : string) : bool :=
  existsb (fun indicator => PyStr.contains indicator html_content)
          ["Shopify.theme"; "shopify-section"; "cdn.shopify.com"; "myshopify.com"]
  || match Dom.find ["meta"] (Dom.attr_is "name" "shopify-checkout-api-token") soup with
     | Some _ => true
     | None => false
     end.

(** [urlparse(url).netloc] for a URL with the scheme http or https: what
    lies between the two slashes and the next slash, question mark or
    hash. *)
Fixpoint authority (l : list ascii) : list ascii :=
  match l with
  | [] => []
  | a :: l' =>
      if existsb (Ascii.eqb a) ["/"%char; "?"%char; "#"%char] then []
      else a :: authority l'
  end.

Definition netloc (url : string) : string :=
  let l := PyStr.chars url in
  if PyStr.is_prefix (PyStr.chars "https://") l then PyStr.of_chars (authority (drop 8 l))
  else if PyStr.is_prefix (PyStr.chars "http://") l then PyStr.of_chars (authority (drop 7 l))
  else "".

(** [_extract_store_name] *)
Definition _extract_store_name (soup : Dom.node) (website_url : string) : string :=
  let from_domain :=
    PyStr.title
      (PyStr.replace
         (PyStr.replace (PyStr.replace (netloc website_url) "www." "") ".com" "")
         ".myshopify.com" "") in
  let from_logo :=
    match Dom.find ["img"] (Dom.has_attr "alt") soup with
    | Some logo =>
        match Dom.get "alt" logo with
        | Some alt =>
            let alt_text := PyStr.strip alt in
            if PyStr.nonempty alt
               && PyStr.nonempty alt_text
               && negb (existsb (String.eqb (PyStr.lower alt_text)) ["logo"; "image"])
            then alt_text
            else from_domain
        | None => from_domain
        end
    | None => from_domain
    end in
  let from_meta :=
    match Dom.find ["meta"] (Dom.attr_is "property" "og:site_name") soup with
    | Some site_name =>
        match Dom.get "content" site_name with
        | Some c => if PyStr.nonempty c then PyStr.strip c else from_logo
        | None => from_logo
        end
    | None => from_logo
    end in
  match Dom.find ["title"] (fun _ => true) soup with
  | Some title_tag =>
      let title := PyStr.strip (Dom.get_text title_tag) in
      let title := Re.sub_empty Patterns.title_suffix title in
      if PyStr.nonempty title then title else from_meta
  | None => from_meta
  end.

(** [_extract_price_range] *)
Definition _extract_price_range (variants : json) : result (gmap string pyfloat) :=
  if negb (truthy variants) then Ok ∅
  else
    let+ vs := py_iter variants in
    let+ prices :=
      rmap (fun variant =>
              let+ p := dict_get "price" JNull variant in
              if truthy p
              then let+ p0 := dict_get "price" (JInt 0) variant in
                   let+ q := py_float w p0 in Ok [q]
              else Ok [])
           vs in
    match concat prices with
    | q :: qs =>
        Ok (<["max_price" := py_max q qs]> (<["min_price" := py_min q qs]> ∅))
    | [] => Ok ∅
    end.

(** [any(variant.get('available', False) for variant in variants)] *)
Fixpoint any_available (vs : list json) : result bool :=
  match vs with
  | [] => Ok false
  | variant :: vs' =>
      let+ a := dict_get "available" (JBool false) variant in
      if truthy a then Ok true else any_available vs'
  end.

(** The body of the loop of [_scrape_products]: one entry of the feed. *)
Definition product_info (website_url : string) (item : json) : result product :=
  let+ id := dict_get "id" JNull item in
  let+ title := dict_get "title" JNull item in
  let+ hdl := dict_get "handle" JNull item in
  let+ vendor := dict_get "vendor" JNull item in
  let+ product_type := dict_get "product_type" JNull item in
  let+ tags0 := dict_get "tags" JNull item in
  let+ tags :=
    (if truthy tags0
     then let+ t := dict_get "tags" (JStr "") item in
          match t with
          | JStr s => Ok (PyStr.split s ","%char)
          | _ => Exn AttributeError
          end
     else Ok []) in
  let+ variants := dict_get "variants" (JArr []) item in
  let+ price_range := _extract_price_range variants in
  let+ vs := py_iter variants in
  let+ available := any_available vs in
  let+ images0 := dict_get "images" (JArr []) item in
  let+ imgs := py_iter images0 in
  let+ images := rmap (dict_get "src" JNull) imgs in
  let+ u := urljoin w website_url ("/products/" +:+ fmt w hdl) in
  Ok (Product id title hdl vendor product_type tags price_range available images u).

(** [_scrape_products] *)
Definition _scrape_products (website_url : string) : M (list product) :=
  try_except
    (let* products_url := lift (urljoin w website_url "/products.json") in
     let* response := http_get w products_url in
     if (status_code response =? 200)%Z then
       let* data := lift (response_json w (content response)) in
       let* feed := lift (dict_get "products" (JArr []) data) in
       let* items := lift (py_iter feed) in
       let* products := lift (rmap (product_info website_url) items) in
       ret products
     else ret [])
    (fun _ => ret []).

(** The entry [_scrape_hero_products] builds from one link. *)
Definition hero_info (website_url : string) (link : Dom.node) (href : string)
  : result hero_product :=
  let+ u := urljoin w website_url href in
  let title_text := PyStr.strip (Dom.get_text link) in
  let image :=
    match Dom.find ["img"] (fun _ => true) link with
    | Some img =>
        match Dom.get "src" img with
        | Some src => src
        | None => ""
        end
    | None => ""
    end in
  let price :=
    match Dom.find_by_class (Patterns.literal_i "price") link with
    | Some price_elem => PyStr.strip (Dom.get_text price_elem)
    | None => ""
    end in
  Ok (HeroProduct title_text u image price).

(** The loop of [_scrape_hero_products] over the links, with the set
    [seen_products] and the list [hero_products] built so far.  When the
    body raises, the loop stops and the list keeps what it has. *)
Fixpoint hero_loop (website_url : string) (links : list Dom.node)
         (seen_products : gset string) (hero_products : list hero_product)
  : result unit * list hero_product :=
  match links with
  | [] => (Ok tt, hero_products)
  | link :: links' =>
      match Dom.get "href" link with
      | Some href =>
          if PyStr.nonempty href && negb (bool_decide (href ∈ seen_products)) then
            match hero_info website_url link href with
            | Ok info =>
                hero_loop website_url links' ({[href]} ∪ seen_products)
                  (if PyStr.nonempty (h_title info) || PyStr.nonempty (h_image info)
                   then hero_products ++ [info]
                   else hero_products)
            | Exn e => (Exn e, hero_products)
            end
          else hero_loop website_url links' seen_products hero_products
      | None => hero_loop website_url links' seen_products hero_products
      end
  end.

(** [soup.find_all('a', href=re.compile(r'/products/'))] *)
Definition product_links (soup : Dom.node) : list Dom.node :=
  Dom.find_all ["a"] (Dom.attr_matches "href" (Patterns.literal "/products/")) soup.

(** [_scrape_hero_products]: the handler of its [try] only logs, and the
    list built so far is returned. *)
Definition _scrape_hero_products (soup : Dom.node) (website_url : string)
  : list hero_product :=
  snd (hero_loop website_url (take 6 (product_links soup)) ∅ []).

(** The loop of the probing extractors: [for path in paths: try: ..
    except Exception: .. continue].  The handler logs the local [url],
    which is bound by the first statement of the [try]: [bound] tells
    whether an earlier turn has bound it.  [page] is the rest of the body,
    [Some] when it returns from the function. *)
Fixpoint probe {A : Type} (website_url : string) (page : string -> M (option A))
         (nothing : A) (bound : bool) (paths : list string) : M A :=
  match paths with
  | [] => ret nothing
  | path :: paths' =>
      match urljoin w website_url ("/" +:+ path) with
      | Ok u =>
          let* found := try_except (page u) (fun _ => ret None) in
          match found with
          | Some a => ret a
          | None => probe website_url page nothing true paths'
          end
      | Exn _ =>
          if bound then probe website_url page nothing true paths'
          else raise UnboundLocalError
      end
  end.

(** The body of [_scrape_policy_page] and of [_scrape_brand_context]. *)
Definition long_text_page (u : string) : M (option string) :=
  let* response := http_get w u in
  if (status_code response =? 200)%Z then
    let* text_content := lift (trafilatura_extract w (content response)) in
    match text_content with
    | Some t =>
        if PyStr.nonempty t && (100 <? PyStr.len (PyStr.strip t))
        then ret (Some (PyStr.strip t))
        else ret None
    | None => ret None
    end
  else ret None.

(** [_scrape_policy_page] *)
Definition _scrape_policy_page (website_url : string) (possible_paths : list string)
  : M string :=
  probe website_url long_text_page "" false possible_paths.

(** [_scrape_privacy_policy] *)
Definition _scrape_privacy_policy (website_url : string) : M string :=
  _scrape_policy_page website_url ["privacy"; "privacy-policy"; "policies/privacy-policy"].

(** [_scrape_return_policy] *)
Definition _scrape_return_policy (website_url : string) : M string :=
  _scrape_policy_page website_url
    ["return"; "refund"; "returns"; "refunds"; "shipping-returns"; "policies/refund-policy"].

(** [_scrape_brand_context] *)
Definition _scrape_brand_context (website_url : string) : M string :=
  probe website_url long_text_page "" false
    ["about"; "about-us"; "pages/about"; "pages/about-us"; "our-story"; "pages/our-story"].

(** The question headings of a section, each with its place. *)
Definition questions (section_ : Dom.node) : list Dom.located :=
  Dom.find_all_located ["h1"; "h2"; "h3"; "h4"; "h5"; "h6"; "dt"] (fun _ => true) section_.

(** What [_scrape_faqs] appends for the heading [q]. *)
Definition faq_of (q : Dom.located) : option faq :=
  let question_text := PyStr.strip (Dom.get_text (Dom.elem q)) in
  if PyStr.nonempty question_text && PyStr.contains "?" question_text then
    let answer_text :=
      match Dom.find_next_sibling ["p"; "div"; "dd"] q with
      | Some answer_elem => PyStr.strip (Dom.get_text answer_elem)
      | None => ""
      end in
    if PyStr.nonempty answer_text then Some (Faq question_text answer_text) else None
  else None.

(** The sections [_scrape_faqs] looks into. *)
Definition faq_sections (soup : Dom.node) : list Dom.node :=
  Dom.find_all ["div"; "section"] (Dom.attr_matches "class" Patterns.faq_class) soup.

(** The list [faqs] built from a page. *)
Definition page_faqs (soup : Dom.node) : list faq :=
  concat (map (fun section_ => omap faq_of (questions section_)) (faq_sections soup)).

(** The body of the loop of [_scrape_faqs]. *)
Definition faq_page (u : string) : M (option (list faq)) :=
  let* response := http_get w u in
  if (status_code response =? 200)%Z then
    let* soup := lift (html_parser w (content response)) in
    match page_faqs soup with
    | [] => ret None
    | faqs => ret (Some faqs)
    end
  else ret None.

(** [_scrape_faqs] *)
Definition _scrape_faqs (website_url : string) : M (list faq) :=
  probe website_url faq_page [] false ["faq"; "faqs"; "help"; "support"; "pages/faq"].

(** [social_patterns], in the order of the dictionary. *)
Definition social_patterns : list (string * list Re.pattern) :=
  [("instagram", [Patterns.profile_link "instagram"; Patterns.at_handle]);
   ("facebook", [Patterns.profile_link "facebook"]);
   ("twitter", [Patterns.profile_link "twitter"; Patterns.profile_link "x"]);
   ("tiktok", [Patterns.tiktok_link]);
   ("youtube", [Patterns.profile_link "youtube"]);
   ("linkedin", [Patterns.profile_link "linkedin"])].

(** [match.group(1)]: the group of every pattern above takes part in
    every match. *)
Definition group_text (s : string) (m : Re.rmatch_t) : string :=
  default "" (Re.group1 (PyStr.chars s) m).

(** [for link in links: .. break]: the entry of the first link the
    pattern is found in. *)
Fixpoint search_links (pattern : Re.pattern) (links : list Dom.node)
  : option social_link :=
  match links with
  | [] => None
  | link :: links' =>
      let href := default "" (Dom.get "href" link) in
      match Re.search pattern href with
      | Some m => Some (SocialLink (group_text href m) href)
      | None => search_links pattern links'
      end
  end.

(** The body of [for pattern in patterns]. *)
Definition social_step (links : list Dom.node) (page_text : string) (platform : string)
           (social_handles : gmap string social_link) (pattern : Re.pattern)
  : gmap string social_link :=
  let social_handles :=
    match search_links pattern links with
    | Some entry => <[platform := entry]> social_handles
    | None => social_handles
    end in
  match social_handles !! platform with
  | Some _ => social_handles
  | None =>
      match Re.search pattern page_text with
      | Some m =>
          let h := group_text page_text m in
          <[platform := SocialLink h ("https://" +:+ platform +:+ ".com/" +:+ h)]>
            social_handles
      | None => social_handles
      end
  end.

(** [_extract_social_handles] *)
Definition _extract_social_handles (soup : Dom.node) : gmap string social_link :=
  let links := Dom.find_all ["a"] (Dom.has_attr "href") soup in
  let page_text := Dom.get_text soup in
  fold_left
    (fun social_handles pp =>
       fold_left (social_step links page_text (fst pp)) (snd pp) social_handles)
    social_patterns ∅.

(** What [_scrape_contact_page] reads in the text of a contact page. *)
Definition contact_info_of (text_content : string) : gmap string contact_value :=
  let contact_info : gmap string contact_value := ∅ in
  let emails := Re.findall Patterns.email_pattern text_content in
  let contact_info :=
    match emails with
    | [] => contact_info
    | _ => <["contact_page_emails" := CList (list_set [] emails)]> contact_info
    end in
  let phones := Re.findall Patterns.phone_pattern text_content in
  match phones with
  | [] => contact_info
  | _ => <["contact_page_phones" := CList (list_set [] phones)]> contact_info
  end.

(** The body of the loop of [_scrape_contact_page]. *)
Definition contact_page (u : string) : M (option (gmap string contact_value)) :=
  let* response := http_get w u in
  if (status_code response =? 200)%Z then
    let* text_content := lift (trafilatura_extract w (content response)) in
    match text_content with
    | Some t => if PyStr.nonempty t then ret (Some (contact_info_of t)) else ret None
    | None => ret None
    end
  else ret None.

(** [_scrape_contact_page] *)
Definition _scrape_contact_page (website_url : string) : M (gmap string contact_value) :=
  probe website_url contact_page ∅ false
    ["contact"; "contact-us"; "pages/contact"; "pages/contact-us"].

(** [for keyword in address_keywords: .. break] *)
Fixpoint find_address (soup : Dom.node) (keywords : list string) : option string :=
  match keywords with
  | [] => None
  | keyword :: keywords' =>
      match Dom.find_text (Patterns.literal_i keyword) soup with
      | Some address_elem =>
          let address_text := PyStr.strip (Dom.get_text (Dom.parent address_elem)) in
          if 20 <? PyStr.len address_text then Some address_text
          else find_address soup keywords'
      | None => find_address soup keywords'
      end
  end.

(** The part of [_extract_contact_details] before the contact page. *)
Definition homepage_contacts (soup : Dom.node) : gmap string contact_value :=
  let contact_details : gmap string contact_value := ∅ in
  let page_text := Dom.get_text soup in
  let emails := Re.findall Patterns.email_pattern page_text in
  let contact_emails :=
    List.filter
      (fun email =>
         negb (existsb (fun exclude => PyStr.contains exclude (PyStr.lower email))
                       ["noreply"; "no-reply"; "admin"; "webmaster"]))
      emails in
  let contact_details :=
    match contact_emails with
    | [] => contact_details
    | _ => <["emails" := CList (list_set [] contact_emails)]> contact_details
    end in
  let phones := Re.findall Patterns.phone_pattern page_text in
  let contact_details :=
    match phones with
    | [] => contact_details
    | _ => <["phones" := CList (list_set [] phones)]> contact_details
    end in
  match find_address soup ["address"; "location"; "office"; "store location"] with
  | Some address_text => <["address" := CStr address_text]> contact_details
  | None => contact_details
  end.

(** [_extract_contact_details]; [d.update(e)] keeps the entries of [d]
    whose key [e] lacks. *)
Definition _extract_contact_details (soup : Dom.node) (website_url : string)
  : M (gmap string contact_value) :=
  let contact_details := homepage_contacts soup in
  let* contact_page_info := _scrape_contact_page website_url in
  ret (contact_page_info ∪ contact_details).

(** [important_patterns], in the order of the dictionary. *)
Definition important_patterns : list (string * list string) :=
  [("order_tracking", ["track"; "tracking"; "order-status"; "track-order"]);
   ("blog", ["blog"; "news"; "articles"]);
   ("support", ["support"; "help"; "customer-service"]);
   ("shipping", ["shipping"; "delivery"]);
   ("size_guide", ["size-guide"; "sizing"; "size-chart"]);
   ("gift_cards", ["gift-card"; "gift-cards"]);
   ("wholesale", ["wholesale"; "trade"; "bulk"])].

(** The links [_extract_important_links] goes through. *)
Definition nav_links (soup : Dom.node) : list Dom.node :=
  concat (map (Dom.find_all ["a"] (Dom.has_attr "href"))
              (Dom.find_all ["nav"; "header"; "footer"] (fun _ => true) soup))
  ++ Dom.find_all ["a"] (Dom.has_attr "href") soup.

(** [for link in nav_links]: the first link with a keyword of the
    category in its target or its text gives the entry, and the loop
    ends. *)
Fixpoint category_link (website_url category_ : string) (keywords : list string)
         (links : list Dom.node) : result (list important_link) :=
  match links with
  | [] => Ok []
  | link :: links' =>
      let href0 := default "" (Dom.get "href" link) in
      let href := PyStr.lower href0 in
      let text := PyStr.lower (PyStr.strip (Dom.get_text link)) in
      if existsb (fun keyword => PyStr.contains keyword href || PyStr.contains keyword text)
                 keywords
      then
        let+ full_url := urljoin w website_url href0 in
        Ok [ImportantLink category_ (PyStr.strip (Dom.get_text link)) full_url]
      else category_link website_url category_ keywords links'
  end.

(** The last loop of [_extract_important_links]: one link for each URL. *)
Fixpoint unique_links (seen_urls : gset string) (links : list important_link)
  : list important_link :=
  match links with
  | [] => []
  | link :: links' =>
      if bool_decide (l_url link ∈ seen_urls) then unique_links seen_urls links'
      else link :: unique_links ({[l_url link]} ∪ seen_urls) links'
  end.

(** [_extract_important_links] *)
Definition _extract_important_links (soup : Dom.node) (website_url : string)
  : result (list important_link) :=
  let links := nav_links soup in
  let+ important_links :=
    rmap (fun ck => category_link website_url (fst ck) (snd ck) links)
         important_patterns in
  Ok (unique_links ∅ (concat important_links)).

(** The start of [scrape_store]: a URL without scheme gets https. *)
Definition normalize (website_url : string) : string :=
  if PyStr.startswith website_url "http://" || PyStr.startswith website_url "https://"
  then website_url
  else "https://" +:+ website_url.

(** The dictionary [insights] as [scrape_store] first builds it. *)
Definition initial_insights (store_name website_url : string) : gmap string value :=
  <["important_links" := VLinks []]>
  (<["brand_context" := VStr ""]>
  (<["contact_details" := VContact ∅]>
  (<["social_handles" := VSocial ∅]>
  (<["faqs" := VFaqs []]>
  (<["return_policy" := VStr ""]>
  (<["privacy_policy" := VStr ""]>
  (<["hero_products" := VHeroProducts []]>
  (<["products" := VProducts []]>
  (<["website_url" := VStr website_url]>
  (<["store_name" := VStr store_name]> ∅)))))))))).

(** The extraction: [scrape_store] after the platform check. *)
Definition extract_all (soup : Dom.node) (website_url : string) : M (gmap string value) :=
  let store_name := _extract_store_name soup website_url in
  let insights := initial_insights store_name website_url in
  let* products := _scrape_products website_url in
  let insights := <["products" := VProducts products]> insights in
  let insights :=
    <["hero_products" := VHeroProducts (_scrape_hero_products soup website_url)]> insights in
  let* privacy_policy := _scrape_privacy_policy website_url in
  let insights := <["privacy_policy" := VStr privacy_policy]> insights in
  let* return_policy := _scrape_return_policy website_url in
  let insights := <["return_policy" := VStr return_policy]> insights in
  let* faqs := _scrape_faqs website_url in
  let insights := <["faqs" := VFaqs faqs]> insights in
  let insights := <["social_handles" := VSocial (_extract_social_handles soup)]> insights in
  let* contact_details := _extract_contact_details soup website_url in
  let insights := <["contact_details" := VContact contact_details]> insights in
  let* brand_context := _scrape_brand_context website_url in
  let insights := <["brand_context" := VStr brand_context]> insights in
  let* important_links := lift (_extract_important_links soup website_url) in
  let insights := <["important_links" := VLinks important_links]> insights in
  ret insights.

(** [scrape_store]: [None] is the answer for a store that cannot be
    reached. *)
Definition scrape_store (website_url : string) : M (option (gmap string value)) :=
  let website_url := normalize website_url in
  try_except
    (let* response := http_get w website_url in
     if negb (status_code response =? 200)%Z then ret None
     else
       let* soup := lift (html_parser w (content response)) in
       let _warned := negb (_is_shopify_store soup (content response)) in
       let* insights := extract_all soup website_url in
       ret (Some insights))
    (fun e => if is_request_exception e then ret None else raise e).

End WithWorld.
End Scraper.

(** ** The endpoint: [fetch_insights] of [src/app.py] *)

Module App.
Import Json Scraper.

(** What [jsonify] is given: an error with its message, or the insights. *)
Inductive payload : Type :=
| Failure (error message : string)
| Insights (d : gmap string value).

(** The pair the view returns: the payload and the status. *)
Record reply : Type := Reply { r_payload : payload; r_status : Z }.

Definition missing_parameter : reply :=
  Reply (Failure "Missing website_url parameter" "Please provide a valid Shopify store URL")
        400.

Definition empty_parameter : reply :=
  Reply (Failure "Empty website_url parameter" "Please provide a valid Shopify store URL")
        400.

Definition not_found_reply : reply :=
  Reply (Failure "Website not found or inaccessible"
                 "The provided URL could not be accessed or is not a valid Shopify store")
        401.

Definition internal_error_reply : reply :=
  Reply (Failure "Internal server error"
                 "An unexpected error occurred while processing your request")
        500.

(** [k in data]: a key of a dictionary, an element of a list, a part of a
    string; nothing else can be searched. *)
Definition py_in (k : string) (data : json) : result bool :=
  match data with
  | JObj o => Ok (match assoc k o with Some _ => true | None => false end)
  | JArr l => Ok (existsb (fun v => match v with JStr s => String.eqb s k | _ => false end) l)
  | JStr s => Ok (PyStr.contains k s)
  | _ => Exn TypeError
  end.

(** [data[k]] for a string [k] that is in [data]: only a dictionary is
    indexed by a string. *)
Definition py_item (k : string) (data : json) : result json :=
  match data with
  | JObj o => match assoc k o with Some v => Ok v | None => Exn ValueError end
  | _ => Exn TypeError
  end.

(** [v.strip()]: only a string has [strip]. *)
Definition py_strip (v : json) : result string :=
  match v with
  | JStr s => Ok (PyStr.strip s)
  | _ => Exn AttributeError
  end.

(** The statements of [fetch_insights] up to the assignment of
    [website_url]: [None] stands for the reply 400 for a missing
    parameter. *)
Definition read_website_url (get_json : result json) : result (option string) :=
  let+ data := get_json in
  if negb (truthy data) then Ok None
  else
    let+ present := py_in "website_url" data in
    if negb present then Ok None
    else
      let+ v := py_item "website_url" data in
      let+ website_url := py_strip v in
      Ok (Some website_url).

(** [fetch_insights]; [get_json] is what [request.get_json()] gives or
    raises.  The handler of the [try] logs [website_url]: when the exception
    comes before the assignment, the handler itself raises
    [UnboundLocalError]. *)
Definition fetch_insights (w : World) (get_json : result json) : M reply :=
  match read_website_url get_json with
  | Exn _ => raise UnboundLocalError
  | Ok None => ret missing_parameter
  | Ok (Some website_url) =>
      if negb (PyStr.nonempty website_url) then ret empty_parameter
      else
        try_except
          (let* insights := scrape_store w website_url in
           match insights with
           | None => ret not_found_reply
           | Some d => ret (Reply (Insights d) 200)
           end)
          (fun _ => ret internal_error_reply)
  end.

End App.

(** ** Concrete stores *)

Module Stores.
Import PyFloat Json Dom Scraper.

Definition a (href : string) (children : list node) : node :=
  Tag "a" [("href", href)] children.

(** [urljoin] on the references of the examples: a reference whose
    authority opens a bracket without closing it is refused with
    [ValueError], an absolute reference is kept, a path is put after the
    origin of the base. *)
Definition join (base ref : string) : result string :=
  if PyStr.contains "[" ref && negb (PyStr.contains "]" ref) then Exn ValueError
  else if PyStr.startswith ref "http://" || PyStr.startswith ref "https://"
          || PyStr.startswith ref "mailto:" then Ok ref
  else if PyStr.startswith ref "/" then
    Ok ("https://" +:+ netloc base +:+ ref)
  else Ok ("https://" +:+ netloc base +:+ "/" +:+ ref).

(** [float] on the strings of the examples. *)
Definition float_table (s : string) : option pyfloat :=
  if String.eqb s "10.00" then Some (FNum (10 # 1))
  else if String.eqb s "25.00" then Some (FNum (25 # 1))
  else if String.eqb s "nan" then Some FNaN
  else if String.eqb s "inf" then Some (FInf false)
  else None.

(** A store whose pages are given by [pages]: a body for the URLs that
    answer 200, every other URL answers 404. *)
Definition serve (pages : list (string * string)) (parse : string -> Dom.node)
           (json_of : string -> result json) (text_of : string -> option string) : World :=
  {| session_get := fun _ u =>
       match Dom.assoc u pages with
       | Some body => Ok (Response 200 body)
       | None => Ok (Response 404 "")
       end;
     html_parser := fun body => Ok (parse body);
     response_json := json_of;
     trafilatura_extract := fun body => Ok (text_of body);
     urljoin := join;
     float_of_str := float_table;
     str_of := fun _ => "" |}.

Definition document (children : list node) : node := Tag "[document]" [] children.

(** The home page of Acme. *)
Definition acme_home : node :=
  document
    [Tag "html" []
       [Tag "head" [] [Tag "title" [] [Text "Acme Co - Shop Online"]];
        Tag "body" []
          [Tag "nav" [] [a "/blogs/news" [Text "Blog"]];
           a "/products/anvil" [Tag "img" [("src", "/img/anvil.png")] []; Text "Anvil"];
           a "/products/anvil" [Text "Anvil again"];
           a "/products/rocket" [Text " "];
           a "/products/magnet"
             [Text "Magnet "; Tag "span" [("class", "Price tag")] [Text " $5 "]];
           a "https://instagram.com/acmeshop" [Text "Instagram"];
           Tag "p" [] [Text "Call 555-123-4567"]]]].

Definition acme_faq : node :=
  document
    [Tag "div" [("class", "page FAQ-list")]
       [Tag "h3" [] [Text " Do you ship? "];
        Tag "span" [] [Text "note"];
        Tag "p" [] [Text " Yes. "];
        Tag "h3" [] [Text "Shipping"];
        Tag "p" [] [Text "Everywhere."];
        Tag "h3" [] [Text "Returns?"]]].

Definition acme_feed : json :=
  JObj [("products",
         JArr [JObj [("id", JInt 7); ("title", JStr "Anvil"); ("handle", JStr "anvil");
                     ("tags", JStr "iron,heavy");
                     ("variants",
                      JArr [JObj [("price", JStr "10.00"); ("available", JBool false)];
                            JObj [("price", JStr "25.00"); ("available", JBool true)]]);
                     ("images", JArr [JObj [("src", JStr "/img/anvil.png")]])]])].

Definition acme : World :=
  serve [("https://www.acme-goods.com", "home");
         ("https://www.acme-goods.com/products.json", "feed");
         ("https://www.acme-goods.com/faq", "faq")]
        (fun body => if String.eqb body "home" then acme_home
                     else if String.eqb body "faq" then acme_faq
                     else document [])
        (fun body => if String.eqb body "feed" then Ok acme_feed else Exn ValueError)
        (fun _ => None).

(** A page with a site name of one space and nothing else to name it. *)
Definition blank_site_name : node :=
  document
    [Tag "html" []
       [Tag "head" [] [Tag "meta" [("property", "og:site_name"); ("content", " ")] []];
        Tag "body" [] []]].

(** A page with a link to an Instagram profile, and one with a mail
    address after it. *)
Definition profile_only : node :=
  document [a "https://instagram.com/acmeshop" [Text "Instagram"]].

Definition profile_then_mail : node :=
  document [a "https://instagram.com/acmeshop" [Text "Instagram"];
            a "mailto:hi@acme.com" [Text "Write to us"]].

(** A page with a phone number. *)
Definition phone_page : node :=
  document [Tag "p" [] [Text "Call 555-123-4567"]].

(** A store whose home page has a link that [urljoin] refuses. *)
Definition bad_link_home : node :=
  document [a "http://[blog" [Text "Blog"]].

Definition bad_link : World :=
  serve [("https://shop.test", "home")]
        (fun body => if String.eqb body "home" then bad_link_home else document [])
        (fun _ => Exn ValueError)
        (fun _ => None).




(** The white space U+00A0, in UTF-8. *)
Definition nbsp : string := String (ascii_of_nat 194) (String (ascii_of_nat 160) EmptyString).

(** A page whose site name is that white space. *)
Definition nbsp_site_name : node :=
  document
    [Tag "html" []
       [Tag "head" [] [Tag "meta" [("property", "og:site_name"); ("content", nbsp)] []];
        Tag "body" [] []]].

(** Links to products, each with its name as text. *)
Definition product_page (names : list string) : node :=
  document (map (fun n => a ("/products/" +:+ n) [Text n]) names).

(** Eight links to seven products: the first product is linked twice. *)
Definition doubled_first : node :=
  product_page ["a"; "a"; "b"; "c"; "d"; "e"; "f"; "g"].

(** A link to a product whose target [urljoin] refuses. *)
Definition bad_product_link : node :=
  document [a "http://[shop/products/anvil" [Text "Anvil"]].



(** A feed as Shopify writes it, with the tags of a product as a list. *)
Definition listed_tags_feed : json :=
  JObj [("products",
         JArr [JObj [("id", JInt 7); ("title", JStr "Anvil"); ("handle", JStr "anvil");
                     ("tags", JArr [JStr "iron"; JStr "heavy"]);
                     ("variants", JArr [JObj [("price", JStr "10.00")]])]])].

Definition listed_tags : World :=
  serve [("https://shop.test", "home"); ("https://shop.test/products.json", "feed")]
        (fun _ => document [])
        (fun body => if String.eqb body "feed" then Ok listed_tags_feed else Exn ValueError)
        (fun _ => None).

(** A server that gives every request the same status and an empty body. *)
Definition always (status : Z) : World :=
  {| session_get := fun _ _ => Ok (Response status "");
     html_parser := fun _ => Ok (document []);
     response_json := fun _ => Exn ValueError;
     trafilatura_extract := fun _ => Ok None;
     urljoin := join;
     float_of_str := float_table;
     str_of := fun _ => "" |}.

(** No network: every request raises [RequestException]. *)
Definition offline : World :=
  {| session_get := fun _ _ => Exn RequestException;
     html_parser := fun _ => Ok (document []);
     response_json := fun _ => Exn ValueError;
     trafilatura_extract := fun _ => Ok None;
     urljoin := join;
     float_of_str := float_table;
     str_of := fun _ => "" |}.

End Stores.

(** ** What the properties speak of *)

Module Props.
Import PyFloat Json Dom Scraper.

Inductive kind : Type :=
| KStr | KProducts | KHeroProducts | KFaqs | KSocial | KContact | KLinks.

Definition kind_of (v : value) : kind :=
  match v with
  | VStr _ => KStr
  | VProducts _ => KProducts
  | VHeroProducts _ => KHeroProducts
  | VFaqs _ => KFaqs
  | VSocial _ => KSocial
  | VContact _ => KContact
  | VLinks _ => KLinks
  end.

(** The eleven fields of a StoreProfile and what each holds. *)
Definition declared_fields : list (string * kind) :=
  [("store_name", KStr); ("website_url", KStr); ("products", KProducts);
   ("hero_products", KHeroProducts); ("privacy_policy", KStr); ("return_policy", KStr);
   ("faqs", KFaqs); ("social_handles", KSocial); ("contact_details", KContact);
   ("brand_context", KStr); ("important_links", KLinks)].

(** Every declared field is there with a value of its kind, and nothing
    else is. *)
Definition full_profile (d : gmap string value) : Prop :=
  dom d = list_to_set (map fst declared_fields) /\
  Forall (fun fk => exists v, d !! fst fk = Some v /\ kind_of v = snd fk) declared_fields.

(** The home page cannot be reached: the request raises a network error or
    is answered with a status outside 200..299. *)
Definition unreachable (w : World) (log : list string) (u : string) : Prop :=
  match session_get w log u with
  | Ok r => ~ (200 <= status_code r < 300)%Z
  | Exn e => e = RequestException
  end.




(** A list of variants as the decoder gives it. *)
Definition variants_of (vs : list (list (string * json))) : json := JArr (map JObj vs).

(** The target of a link. *)
Definition href_of (link : node) : string := default "" (Dom.get "href" link).

(** The elements of [l] that are not in [seen], each at its first place. *)
Fixpoint distinct (seen : gset string) (l : list string) : list string :=
  match l with
  | [] => []
  | x :: l' =>
      if bool_decide (x ∈ seen) then distinct seen l'
      else x :: distinct ({[x]} ∪ seen) l'
  end.

(** A link with a target that is not empty. *)
Definition has_href (link : node) : Prop :=
  exists href, Dom.get "href" link = Some href /\ PyStr.nonempty href = true.

(** An entry with a title or an image. *)
Definition shown (info : hero_product) : Prop :=
  h_title info <> "" \/ h_image info <> "".




(** The page at [u] was fetched with the status 200 and parsed to [soup]. *)
Definition page_parsed (w : World) (u : string) (soup : node) : Prop :=
  exists log r,
    session_get w log u = Ok r /\ status_code r = 200%Z
    /\ html_parser w (content r) = Ok soup.

(** The texts of the matches: [[m.group(0) for m in re.finditer(p, s)]]. *)
Definition matched_texts (p : Re.pattern) (s : string) : list string :=
  let w := PyStr.chars s in
  map (Re.whole w)
      (Re.matches_from (Re.p_ignorecase p) w (S (length w)) (Re.p_regex p) 0).

(** The first path each probing extractor tries. *)
Definition first_paths : list string := ["privacy"; "return"; "faq"; "contact"; "about"].

(** [urljoin] accepts the base with the first paths. *)
Definition joins_first_paths (w : World) (u : string) : Prop :=
  Forall (fun path => exists u', urljoin w u ("/" +:+ path) = Ok u') first_paths.

(** The computation returns whatever the log: it never raises. *)
Definition absorbs {A : Type} (m : M A) : Prop :=
  forall log, exists a log', m log = (Ok a, log').

(** Every request raises. *)
Definition no_answer (w : World) : Prop :=
  forall log u, exists e, session_get w log u = Exn e.

(** What [scrape_store] does with an exception. *)
Definition surfaced (e : exn) : result (option (gmap string value)) :=
  if is_request_exception e then Ok None else Exn e.

(** Reads a field of a dictionary built by assignments to literal keys. *)
Ltac lookup_field :=
  repeat first
    [ rewrite lookup_insert_eq; reflexivity
    | rewrite lookup_insert_ne by discriminate ].

(** The computation only adds to the log of the requests. *)
Definition extends {A : Type} (m : M A) : Prop :=
  forall log, exists more, snd (m log) = log ++ more.

(** The URLs [urljoin] makes of the base and the paths it accepts. *)
Definition joined (w : World) (u : string) (paths : list string) : list string :=
  omap (fun path => match urljoin w u ("/" +:+ path) with
                    | Ok u' => Some u'
                    | Exn _ => None
                    end) paths.



(** The words that keep an address out of [emails]. *)
Definition unwanted (email : string) : bool :=
  existsb (fun exclude => PyStr.contains exclude (PyStr.lower email))
          ["noreply"; "no-reply"; "admin"; "webmaster"].

(** An item of the feed whose tags are there and are no string. *)
Definition tags_not_text (item : json) : Prop :=
  exists o t, item = JObj o /\ Json.assoc "tags" o = Some t
              /\ truthy t = true /\ forall s, t <> JStr s.

(** The body of the request is a dictionary with a string for
    [website_url]. *)
Definition names_a_url (get_json : result json) (s : string) : Prop :=
  exists o, get_json = Ok (JObj o) /\ Json.assoc "website_url" o = Some (JStr s).

(** The computation requests only URLs that [urljoin] makes of the base and
    of the paths, in the order of the paths. *)
Definition asks {A : Type} (w : World) (u : string) (paths : list string) (m : M A) : Prop :=
  forall log, exists more,
    snd (m log) = log ++ more /\ more `sublist_of` joined w u paths.

(** The paths of the pages [scrape_store] asks for beside the home page, in
    the order of the extractors. *)
Definition candidate_paths : list string :=
  ["products.json";
   "privacy"; "privacy-policy"; "policies/privacy-policy";
   "return"; "refund"; "returns"; "refunds"; "shipping-returns"; "policies/refund-policy";
   "faq"; "faqs"; "help"; "support"; "pages/faq";
   "contact"; "contact-us"; "pages/contact"; "pages/contact-us";
   "about"; "about-us"; "pages/about"; "pages/about-us"; "our-story"; "pages/our-story"].






(** The feed was fetched with the status 200 and decoded to a dictionary
    whose [products] are [items]. *)
Definition feed_items (w : World) (u : string) (log : list string) (items : list json)
  : Prop :=
  exists pu r data feed,
    urljoin w u "/products.json" = Ok pu
    /\ session_get w log pu = Ok r /\ status_code r = 200%Z
    /\ response_json w (content r) = Ok data
    /\ dict_get "products" (JArr []) data = Ok feed
    /\ py_iter feed = Ok items.

(** The name [_extract_store_name] makes of the domain. *)
Definition domain_name (website_url : string) : string :=
  PyStr.title
    (PyStr.replace
       (PyStr.replace (PyStr.replace (netloc website_url) "www." "") ".com" "")
       ".myshopify.com" "").

(** The links whose target is new, each with the targets before it
    counted as seen. *)
Fixpoint new_links (seen : gset string) (links : list node) : list node :=
  match links with
  | [] => []
  | link :: links' =>
      if bool_decide (href_of link ∈ seen) then new_links seen links'
      else link :: new_links ({[href_of link]} ∪ seen) links'
  end.

(** The entries of the links up to the first link that [urljoin] refuses,
    those without title and image left out. *)
Fixpoint entries_until_refused (w : World) (u : string) (links : list node)
  : list hero_product :=
  match links with
  | [] => []
  | link :: links' =>
      match hero_info w u link (href_of link) with
      | Ok info =>
          (if PyStr.nonempty (h_title info) || PyStr.nonempty (h_image info)
           then [info] else [])
          ++ entries_until_refused w u links'
      | Exn _ => []
      end
  end.

(** The reading of the specification: the entries of the first six links
    to a product with different targets. *)
Definition hero_products_spec (w : World) (u : string) (soup : node) : list hero_product :=
  entries_until_refused w u (take 6 (new_links ∅ (product_links soup))).




End Props.

(** ** Properties *)

Module Theory.
Import PyFloat Json Dom Scraper Props.

(** *** Computations *)

Lemma bind_ok {A B} (m : M A) (f : A -> M B) log b log' :
  bind m f log = (Ok b, log') ->
  exists a log1, m log = (Ok a, log1) /\ f a log1 = (Ok b, log').
Proof.
  unfold bind. destruct (m log) as [[a | e] log1]; intros H.
  - exists a, log1. auto.
  - discriminate.
Qed.

Lemma bind_run {A B} (m : M A) (f : A -> M B) log a log1 :
  m log = (Ok a, log1) -> bind m f log = f a log1.
Proof. unfold bind. intros ->. reflexivity. Qed.

Lemma bind_exn {A B} (m : M A) (f : A -> M B) log e log1 :
  m log = (Exn e, log1) -> bind m f log = (Exn e, log1).
Proof. unfold bind. intros ->. reflexivity. Qed.

Lemma ret_ok {A} (a b : A) log log' :
  ret a log = (Ok b, log') -> b = a /\ log' = log.
Proof. unfold ret. intros H. injection H. auto. Qed.

(** *** The shape of the profile *)


Lemma insights_shape store_name website_url products hero privacy returns faqs social
      contacts brand links :
  full_profile
    (<["important_links" := VLinks links]>
     (<["brand_context" := VStr brand]>
     (<["contact_details" := VContact contacts]>
     (<["social_handles" := VSocial social]>
     (<["faqs" := VFaqs faqs]>
     (<["return_policy" := VStr returns]>
     (<["privacy_policy" := VStr privacy]>
     (<["hero_products" := VHeroProducts hero]>
     (<["products" := VProducts products]>
     (initial_insights store_name website_url)))))))))).
Proof.
  unfold full_profile, initial_insights, declared_fields. split.
  - rewrite !dom_insert_L, dom_empty_L. cbn [map fst list_to_set]. set_solver.
  - repeat (apply Forall_cons; split); try apply Forall_nil;
      cbn [fst snd]; eexists; (split; [lookup_field | reflexivity]).
Qed.

Lemma extract_all_shape w soup u log d log' :
  extract_all w soup u log = (Ok d, log') -> full_profile d.
Proof.
  unfold extract_all. intros H.
  repeat (apply bind_ok in H; destruct H as (? & ? & _ & H)).
  apply ret_ok in H. destruct H as [-> _].
  apply insights_shape.
Qed.

(** *** The start of [scrape_store] *)

(** What [scrape_store] does with the answer of the home page. *)
Lemma scrape_store_unfold w url log :
  scrape_store w url log =
  let u := normalize url in
  match session_get w log u with
  | Ok r =>
      if negb (status_code r =? 200)%Z then (Ok None, log ++ [u])
      else
        match html_parser w (content r) with
        | Ok soup =>
            match extract_all w soup u (log ++ [u]) with
            | (Ok d, log') => (Ok (Some d), log')
            | (Exn e, log') => (if is_request_exception e then Ok None else Exn e, log')
            end
        | Exn e => (if is_request_exception e then Ok None else Exn e, log ++ [u])
        end
  | Exn e => (if is_request_exception e then Ok None else Exn e, log ++ [u])
  end.
Proof.
  unfold scrape_store, try_except, bind, http_get, lift, ret, raise. cbv zeta.
  destruct (session_get w log (normalize url)) as [r | e].
  - destruct (negb (status_code r =? 200)%Z); [reflexivity |].
    destruct (html_parser w (content r)) as [soup | e].
    + destruct (extract_all w soup (normalize url) (log ++ [normalize url])) as [[d | e] l].
      * reflexivity.
      * destruct (is_request_exception e); reflexivity.
    + destruct (is_request_exception e); reflexivity.
  - destruct (is_request_exception e); reflexivity.
Qed.

(** C1. Whatever the URL and whatever the network and the libraries do,
    [scrape_store] ends in one of three ways: it raises (the hard failure),
    it returns [None] (NOT_FOUND), or it returns a dictionary that has the
    eleven declared fields and nothing else, each with a value of the kind
    declared for it.  A dictionary with a field missing is never returned. *)
Theorem scrape_store_profile_shape (w : World) (url : string) (log : list string) :
  (exists e, fst (scrape_store w url log) = Exn e) \/
  fst (scrape_store w url log) = Ok None \/
  (exists d, fst (scrape_store w url log) = Ok (Some d) /\ full_profile d).
Proof.
  rewrite scrape_store_unfold. cbv zeta.
  destruct (session_get w log (normalize url)) as [r | e].
  - destruct (negb (status_code r =? 200)%Z); [right; left; reflexivity |].
    destruct (html_parser w (content r)) as [soup | e].
    + destruct (extract_all w soup (normalize url) (log ++ [normalize url]))
        as [[d | e] l] eqn:E.
      * right; right. exists d. split; [reflexivity |].
        eapply extract_all_shape; eassumption.
      * destruct (is_request_exception e); [right; left; reflexivity | left; eauto].
    + destruct (is_request_exception e); [right; left; reflexivity | left; eauto].
  - destruct (is_request_exception e); [right; left; reflexivity | left; eauto].
Qed.

(** The store of the examples gives a full profile. *)
Example acme_profile :
  match fst (scrape_store Stores.acme "www.acme-goods.com" []) with
  | Ok (Some d) => d !! "store_name"
  | _ => None
  end = Some (VStr "Acme Co").
Proof. vm_compute. reflexivity. Qed.

(** C2. When the request for the home page raises a network error or is
    answered with a status outside 200..299, [scrape_store] returns [None]
    (it does not raise), and the home page is the only request it has made:
    no extractor has run, whatever the other pages would have answered. *)
Theorem unreachable_is_not_found (w : World) (url : string) (log : list string) :
  unreachable w log (normalize url) ->
  scrape_store w url log = (Ok None, log ++ [normalize url]).
Proof.
  unfold unreachable. rewrite scrape_store_unfold. cbv zeta.
  destruct (session_get w log (normalize url)) as [r | e].
  - intros H. destruct (Z.eqb_spec (status_code r) 200) as [E | E]; [lia | reflexivity].
  - intros ->. reflexivity.
Qed.

Lemma unreachable_is_not_found_404 :
  unreachable (Stores.always 404) [] (normalize "acme-goods.com")
  /\ scrape_store (Stores.always 404) "acme-goods.com" []
     = (Ok None, ["https://acme-goods.com"]).
Proof.
  assert (H : unreachable (Stores.always 404) [] (normalize "acme-goods.com"))
    by (unfold unreachable; cbn; lia).
  split; [exact H |].
  exact (unreachable_is_not_found (Stores.always 404) "acme-goods.com" [] H).
Defined.

(** C10. A home page answered with any status other than 200, the other
    statuses of the range 200..299 included, is taken as unreachable:
    [scrape_store] returns [None] after that one request; and a profile is
    returned only when the home page was answered with the status 200. *)
Theorem only_200_is_reachable (w : World) (url : string) (log : list string) :
  (forall r, session_get w log (normalize url) = Ok r -> status_code r <> 200%Z ->
             scrape_store w url log = (Ok None, log ++ [normalize url]))
  /\ (forall d log', scrape_store w url log = (Ok (Some d), log') ->
                     exists r, session_get w log (normalize url) = Ok r
                               /\ status_code r = 200%Z).
Proof.
  rewrite scrape_store_unfold. cbv zeta. split.
  - intros r -> H. destruct (Z.eqb_spec (status_code r) 200); [contradiction | reflexivity].
  - intros d log'. destruct (session_get w log (normalize url)) as [r | e].
    + destruct (Z.eqb_spec (status_code r) 200) as [E | E]; cbn [negb].
      * intros _. eauto.
      * discriminate.
    + destruct (is_request_exception e); discriminate.
Qed.

Lemma only_200_is_reachable_204 :
  scrape_store (Stores.always 204) "acme-goods.com" [] = (Ok None, ["https://acme-goods.com"]).
Proof.
  apply (proj1 (only_200_is_reachable (Stores.always 204) "acme-goods.com" [])
           (Response 204 "")); [reflexivity | cbn; discriminate].
Defined.

(** *** The price range *)

(** The order of the floats that are not NaN. *)
Ltac float_cases :=
  repeat match goal with
         | x : pyfloat |- _ => destruct x as [? | | [|] |]
         end;
  cbn in *; try discriminate; try reflexivity;
  rewrite ?negb_true_iff, ?negb_false_iff in *;
  repeat match goal with
         | H : Qle_bool _ _ = true |- _ => apply Qle_bool_iff in H
         | H : Qle_bool _ _ = false |- _ =>
             apply not_true_iff_false in H; rewrite Qle_bool_iff in H
         | |- Qle_bool _ _ = true => apply Qle_bool_iff
         | |- Qle_bool _ _ = false => apply not_true_iff_false; rewrite Qle_bool_iff
         end;
  try lra.

Lemma fle_trans (x y z : pyfloat) :
  fle x y = true -> fle y z = true -> fle x z = true.
Proof. unfold fle. intros H1 H2. float_cases. Qed.

Lemma flt_fle (x y : pyfloat) : flt x y = true -> fle x y = true.
Proof. unfold fle. intros H. float_cases. Qed.

Lemma not_flt_fle (x y : pyfloat) :
  is_nan x = false -> is_nan y = false -> flt x y = false -> fle y x = true.
Proof. unfold fle. intros -> -> ->. reflexivity. Qed.

Lemma fle_not_flt (x y : pyfloat) : fle x y = true -> flt y x = false.
Proof. unfold fle. intros H. by destruct (is_nan x), (is_nan y), (flt y x). Qed.

Lemma fle_not_nan (x y : pyfloat) :
  fle x y = true -> is_nan x = false /\ is_nan y = false.
Proof. unfold fle. intros H. by destruct (is_nan x), (is_nan y). Qed.

Lemma fle_refl (x : pyfloat) : is_nan x = false -> fle x x = true.
Proof. unfold fle. intros H. float_cases. Qed.


(** What [min] keeps: the head when it is NaN; otherwise a float that is
    not above the head nor above any float of the list that is not NaN. *)
Lemma py_min_inv (l : list pyfloat) :
  forall cur,
    py_min cur l ∈ cur :: l
    /\ (is_nan cur = true -> py_min cur l = cur)
    /\ (is_nan cur = false ->
        fle (py_min cur l) cur = true
        /\ forall z, z ∈ l -> is_nan z = false -> fle (py_min cur l) z = true).
Proof.
  induction l as [| y l IH]; intros cur; unfold py_min; cbn [fold_left].
  - split; [left |]. split; [reflexivity |]. intros H. split; [by apply fle_refl |].
    intros z Hz. inversion Hz.
  - fold (py_min (if flt y cur then y else cur) l).
    destruct (flt y cur) eqn:E.
    + destruct (IH y) as (Hin & _ & Hle).
      apply flt_fle in E. destruct (fle_not_nan _ _ E) as [Hy Hcur].
      destruct (Hle Hy) as [Hmy Hl].
      split; [by right |]. split; [congruence |]. intros _.
      split; [by eapply fle_trans |].
      intros z Hz Hnan. apply elem_of_cons in Hz as [-> | Hz]; auto.
    + destruct (IH cur) as (Hin & Hnan & Hle).
      split; [apply elem_of_cons in Hin as [-> | Hin]; [left | right; by right] |].
      split; [exact Hnan |]. intros Hcur. destruct (Hle Hcur) as [Hmc Hl].
      split; [exact Hmc |].
      intros z Hz Hz'. apply elem_of_cons in Hz as [-> | Hz]; [| auto].
      eapply fle_trans; [exact Hmc | by apply not_flt_fle].
Qed.

Lemma py_max_inv (l : list pyfloat) :
  forall cur,
    py_max cur l ∈ cur :: l
    /\ (is_nan cur = true -> py_max cur l = cur)
    /\ (is_nan cur = false ->
        fle cur (py_max cur l) = true
        /\ forall z, z ∈ l -> is_nan z = false -> fle z (py_max cur l) = true).
Proof.
  induction l as [| y l IH]; intros cur; unfold py_max; cbn [fold_left].
  - split; [left |]. split; [reflexivity |]. intros H. split; [by apply fle_refl |].
    intros z Hz. inversion Hz.
  - fold (py_max (if flt cur y then y else cur) l).
    destruct (flt cur y) eqn:E.
    + destruct (IH y) as (Hin & _ & Hle).
      apply flt_fle in E. destruct (fle_not_nan _ _ E) as [Hcur Hy].
      destruct (Hle Hy) as [Hym Hl].
      split; [by right |]. split; [congruence |]. intros _.
      split; [by eapply fle_trans |].
      intros z Hz Hnan. apply elem_of_cons in Hz as [-> | Hz]; auto.
    + destruct (IH cur) as (Hin & Hnan & Hle).
      split; [apply elem_of_cons in Hin as [-> | Hin]; [left | right; by right] |].
      split; [exact Hnan |]. intros Hcur. destruct (Hle Hcur) as [Hcm Hl].
      split; [exact Hcm |].
      intros z Hz Hz'. apply elem_of_cons in Hz as [-> | Hz]; [| auto].
      apply (fle_trans _ cur); [by apply not_flt_fle | exact Hcm].
Qed.






Example price_range_10_25_10_values :
  match _extract_price_range Stores.acme
          (variants_of [[("price", JStr "10.00")]; [("price", JInt 25)];
                        [("price", JInt 10)]]) with
  | Ok m => (m !! "min_price", m !! "max_price")
  | Exn _ => (None, None)
  end = (Some (FNum (10 # 1)), Some (FNum (25 # 1))).
Proof. vm_compute. reflexivity. Qed.

Example price_range_unpriced :
  _extract_price_range Stores.acme (variants_of [[("available", JBool true)]; []]) = Ok ∅.
Proof. vm_compute. reflexivity. Qed.

(** A NaN at the head of the prices is both bounds, whatever follows; a NaN
    further on is passed over. *)
Example price_range_nan :
  match _extract_price_range Stores.acme
          (variants_of [[("price", JStr "nan")]; [("price", JInt 25)]]) with
  | Ok m => (m !! "min_price", m !! "max_price")
  | Exn _ => (None, None)
  end = (Some FNaN, Some FNaN)
  /\ match _extract_price_range Stores.acme
             (variants_of [[("price", JInt 25)]; [("price", JStr "nan")];
                           [("price", JInt 10)]]) with
     | Ok m => (m !! "min_price", m !! "max_price")
     | Exn _ => (None, None)
     end = (Some (FNum (10 # 1)), Some (FNum (25 # 1))).
Proof. split; vm_compute; reflexivity. Qed.

(** [float] of an integer rounds to 53 bits, to the even neighbour on a
    tie, and raises on an integer beyond the range of the floats. *)
Example float_of_int_rounds :
  float_of_int (2 ^ 53 + 1) = Some (FNum (inject_Z (2 ^ 53)))
  /\ float_of_int (2 ^ 53 + 3) = Some (FNum (inject_Z (2 ^ 53 + 4)))
  /\ float_of_int (2 ^ 60 + 2 ^ 7) = Some (FNum (inject_Z (2 ^ 60)))
  /\ float_of_int (2 ^ 60 + 2 ^ 7 + 1) = Some (FNum (inject_Z (2 ^ 60 + 256)))
  /\ float_of_int (- (2 ^ 53 + 3)) = Some (FNum (inject_Z (- (2 ^ 53 + 4))))
  /\ float_of_int (2 ^ 1024 - 1) = None
  /\ _extract_price_range Stores.acme (variants_of [[("price", JInt (10 ^ 400))]])
     = Exn OverflowError.
Proof. repeat split; vm_compute; reflexivity. Qed.


(** *** Hero products *)

Lemma distinct_spec (l : list string) :
  forall seen, NoDup (distinct seen l) /\ forall x, x ∈ distinct seen l -> x ∉ seen.
Proof.
  induction l as [| y l IH]; intros seen; cbn [distinct].
  - split; [constructor | intros x Hx; inversion Hx].
  - case_bool_decide as Hy; [apply IH |].
    destruct (IH ({[y]} ∪ seen)) as [Hnd Hout]. split.
    + constructor; [| exact Hnd]. intros Hin. apply Hout in Hin.
      apply Hin, elem_of_union_l, elem_of_singleton. reflexivity.
    + intros x Hx. apply elem_of_cons in Hx as [-> | Hx]; [exact Hy |].
      apply Hout in Hx. intros Hs. apply Hx, elem_of_union_r, Hs.
Qed.

(** The distinct elements of a prefix are at the head of the distinct
    elements of the list. *)
Lemma distinct_take (l : list string) :
  forall n seen, exists k, k <= n /\ distinct seen (take n l) = take k (distinct seen l).
Proof.
  induction l as [| y l IH]; intros n seen.
  - exists 0. rewrite take_nil. split; [lia | reflexivity].
  - destruct n as [| n]; [exists 0; split; [lia | reflexivity] |].
    cbn [take distinct]. case_bool_decide.
    + destruct (IH n seen) as (k & Hk & E). exists k. split; [lia | exact E].
    + destruct (IH n ({[y]} ∪ seen)) as (k & Hk & E). exists (S k).
      split; [lia | cbn [take]; rewrite E; reflexivity].
Qed.

Lemma nonempty_true (s : string) : PyStr.nonempty s = true <-> s <> "".
Proof. destruct s; cbn; split; congruence. Qed.

(** The links [_scrape_hero_products] goes through have a target. *)
Lemma product_links_have_href (soup : node) : Forall has_href (product_links soup).
Proof.
  unfold product_links, find_all, find_all_located.
  apply Forall_forall. intros link Hin.
  apply list_elem_of_fmap in Hin as (d & -> & Hd).
  apply list_elem_of_In, List.filter_In in Hd as [_ Hd].
  apply andb_true_iff in Hd as [_ Hd]. unfold attr_matches in Hd.
  destruct (Dom.get "href" (elem d)) as [href |] eqn:E; [| discriminate].
  exists href. split; [exact E |].
  destruct href; [vm_compute in Hd; discriminate | reflexivity].
Qed.

Lemma hero_loop_entries w u (links : list node) :
  Forall has_href links ->
  forall (seen : gset string) (acc : list hero_product),
    snd (hero_loop w u links seen acc)
    = acc ++ entries_until_refused w u (new_links seen links).
Proof.
  induction 1 as [| link links (href & Hget & Hne) _ IH]; intros seen acc.
  - cbn. by rewrite app_nil_r.
  - assert (Hh : href_of link = href) by (unfold href_of; rewrite Hget; reflexivity).
    cbn [hero_loop new_links]. rewrite Hh, Hget, Hne. cbn [andb].
    case_bool_decide as Hseen; cbn [negb]; [apply IH |].
    cbn [entries_until_refused]. rewrite Hh.
    destruct (hero_info w u link href) as [info | e]; [| cbn; by rewrite app_nil_r].
    rewrite IH.
    destruct (PyStr.nonempty (h_title info) || PyStr.nonempty (h_image info));
      [by rewrite <- app_assoc | reflexivity].
Qed.

Lemma new_links_sublist (links : list node) :
  forall seen, new_links seen links `sublist_of` links.
Proof.
  induction links as [| link links IH]; intros seen; cbn [new_links]; [constructor |].
  case_bool_decide; [by apply sublist_cons | by apply sublist_skip].
Qed.

Lemma new_links_hrefs (links : list node) :
  forall seen, map href_of (new_links seen links) = distinct seen (map href_of links).
Proof.
  induction links as [| link links IH]; intros seen; cbn [new_links map distinct];
    [reflexivity |].
  case_bool_decide; [apply IH | cbn [map]; by rewrite IH].
Qed.

(** The entries come from links kept in their order, and each has a title
    or an image. *)
Lemma entries_kept w u (links : list node) :
  Forall shown (entries_until_refused w u links)
  /\ exists kept,
       kept `sublist_of` links
       /\ Forall2 (fun link info => hero_info w u link (href_of link) = Ok info)
                  kept (entries_until_refused w u links).
Proof.
  induction links as [| link links (IHs & kept & Hsub & Hall)];
    cbn [entries_until_refused].
  - split; [constructor |]. exists []. split; constructor.
  - destruct (hero_info w u link (href_of link)) as [info | e] eqn:E.
    + destruct (PyStr.nonempty (h_title info) || PyStr.nonempty (h_image info)) eqn:Es;
        cbn [app].
      * split.
        -- constructor; [| exact IHs]. unfold shown.
           apply orb_true_iff in Es as [Es | Es]; apply nonempty_true in Es; auto.
        -- exists (link :: kept). split; [by apply sublist_skip | by constructor].
      * split; [exact IHs |]. exists kept. split; [by apply sublist_cons | exact Hall].
    + split; [constructor |]. exists []. split; [apply sublist_nil_l | constructor].
Qed.

(** When [urljoin] refuses no link and every link has a title or an
    image, each link has its entry. *)
Lemma entries_all w u (links : list node) :
  Forall (fun link => exists info, hero_info w u link (href_of link) = Ok info
                                   /\ shown info) links ->
  Forall2 (fun link info => hero_info w u link (href_of link) = Ok info)
          links (entries_until_refused w u links).
Proof.
  induction 1 as [| link links (info & E & Hs) _ IH]; cbn [entries_until_refused];
    [constructor |].
  rewrite E.
  assert (Es : PyStr.nonempty (h_title info) || PyStr.nonempty (h_image info) = true).
  { apply orb_true_iff. destruct Hs as [Hs | Hs]; apply nonempty_true in Hs; auto. }
  rewrite Es. cbn [app]. by constructor.
Qed.

(** C5, as the code has it.  [_scrape_hero_products] looks at the first
    six links to a product, in the order of the document, and keeps of
    them the first link of each target: the links kept have pairwise
    different targets, which are the first [k] different targets of the
    page for some [k] up to six.  Its result is the entries of the links
    kept, in their order, an entry without title and image left out, up to
    the first link whose target [urljoin] refuses.  So every entry has a
    title or an image, there are at most six, and when [urljoin] accepts
    every link kept and each has a title or an image, the result has
    exactly one entry for each of them. *)
Theorem hero_products_of_first_six_links (w : World) (soup : node) (url : string) :
  let links := new_links ∅ (take 6 (product_links soup)) in
  let entries := _scrape_hero_products w soup url in
  entries = entries_until_refused w url links
  /\ links `sublist_of` take 6 (product_links soup)
  /\ NoDup (map href_of links)
  /\ (exists k, k <= 6
                /\ map href_of links
                   = take k (distinct ∅ (map href_of (product_links soup))))
  /\ (exists kept,
        kept `sublist_of` links
        /\ Forall2 (fun link info => hero_info w url link (href_of link) = Ok info)
                   kept entries)
  /\ Forall shown entries
  /\ length entries <= 6
  /\ (Forall (fun link => exists info, hero_info w url link (href_of link) = Ok info
                                       /\ shown info) links ->
      Forall2 (fun link info => hero_info w url link (href_of link) = Ok info)
              links entries).
Proof.
  intros links entries.
  assert (E : entries = entries_until_refused w url links).
  { unfold entries, _scrape_hero_products.
    rewrite hero_loop_entries by apply Forall_take, product_links_have_href.
    reflexivity. }
  assert (Hsub : links `sublist_of` take 6 (product_links soup))
    by apply new_links_sublist.
  destruct (entries_kept w url links) as (Hshown & kept & Hkept & Hall).
  rewrite E. split; [reflexivity |]. split; [exact Hsub |].
  split; [unfold links; rewrite new_links_hrefs; apply distinct_spec |].
  split.
  { unfold links. rewrite new_links_hrefs, <- List.firstn_map.
    destruct (distinct_take (map href_of (product_links soup)) 6 ∅) as (k & Hk & ->).
    by exists k. }
  split; [by exists kept |]. split; [exact Hshown |]. split.
  - rewrite <- (Forall2_length _ _ _ Hall).
    apply sublist_length in Hkept, Hsub. rewrite length_take in Hsub. lia.
  - apply entries_all.
Qed.

(** Eight links to eight products, each with its name as text. *)
Lemma hero_products_of_eight :
  let page := Stores.product_page ["a"; "b"; "c"; "d"; "e"; "f"; "g"; "h"] in
  let links := new_links ∅ (take 6 (product_links page)) in
  map h_title (_scrape_hero_products Stores.acme page "https://www.acme-goods.com")
  = ["a"; "b"; "c"; "d"; "e"; "f"]
  /\ Forall2 (fun link info =>
                hero_info Stores.acme "https://www.acme-goods.com" link (href_of link)
                = Ok info)
             links
             (_scrape_hero_products Stores.acme page "https://www.acme-goods.com").
Proof.
  split; [vm_compute; reflexivity |].
  apply (hero_products_of_first_six_links Stores.acme
           (Stores.product_page ["a"; "b"; "c"; "d"; "e"; "f"; "g"; "h"])
           "https://www.acme-goods.com").
  repeat (constructor;
          [eexists; split; [vm_compute; reflexivity | left; discriminate] |]).
  constructor.
Defined.

(** C5, as it is stated, fails.  The cut to six links comes before the
    targets are compared: with the first product linked twice, the eight
    links of the page give five entries, where the first six different
    targets give six. *)
Lemma hero_products_cut_before_distinct :
  map h_title (_scrape_hero_products Stores.acme Stores.doubled_first
                 "https://www.acme-goods.com")
  = ["a"; "b"; "c"; "d"; "e"]
  /\ map h_title (hero_products_spec Stores.acme "https://www.acme-goods.com"
                    Stores.doubled_first)
     = ["a"; "b"; "c"; "d"; "e"; "f"]
  /\ _scrape_hero_products Stores.acme Stores.doubled_first "https://www.acme-goods.com"
     <> hero_products_spec Stores.acme "https://www.acme-goods.com" Stores.doubled_first.
Proof.
  assert (H1 : map h_title (_scrape_hero_products Stores.acme Stores.doubled_first
                              "https://www.acme-goods.com")
               = ["a"; "b"; "c"; "d"; "e"]) by (vm_compute; reflexivity).
  assert (H2 : map h_title (hero_products_spec Stores.acme "https://www.acme-goods.com"
                              Stores.doubled_first)
               = ["a"; "b"; "c"; "d"; "e"; "f"]) by (vm_compute; reflexivity).
  split; [exact H1 |]. split; [exact H2 |].
  intros H. rewrite H, H2 in H1. discriminate.
Qed.

(** *** Probing and the questions *)

(** A probe returns what a page gave or the empty value; it raises only
    when [urljoin] fails on the first path, where the handler reads the
    [url] that was never bound. *)
Lemma probe_spec {A} w url (page : string -> M (option A)) (nothing : A)
      (paths : list string) :
  forall (bound : bool) (log : list string),
    match probe w url page nothing bound paths log with
    | (Ok a, _) =>
        a = nothing \/ exists u log0 log1, page u log0 = (Ok (Some a), log1)
    | (Exn e, _) =>
        e = UnboundLocalError /\ bound = false
        /\ exists path e', head paths = Some path
                           /\ urljoin w url ("/" +:+ path) = Exn e'
    end.
Proof.
  induction paths as [| path paths IH]; intros bound log; cbn [probe].
  - left. reflexivity.
  - destruct (urljoin w url ("/" +:+ path)) as [u | e'] eqn:Ejoin.
    + unfold bind, try_except.
      destruct (page u log) as [[[a |] | e] log1] eqn:Epage; cbn [ret].
      * right. eauto.
      * specialize (IH true log1).
        destruct (probe w url page nothing true paths log1) as [[a | e] l]; [exact IH |].
        destruct IH as (_ & ? & _). discriminate.
      * specialize (IH true log1).
        destruct (probe w url page nothing true paths log1) as [[a | e0] l]; [exact IH |].
        destruct IH as (_ & ? & _). discriminate.
    + destruct bound.
      * specialize (IH true log).
        destruct (probe w url page nothing true paths log) as [[a | e0] l]; [exact IH |].
        destruct IH as (_ & ? & _). discriminate.
      * cbn [raise]. repeat split. exists path, e'. split; [reflexivity | exact Ejoin].
Qed.







(** The page of questions of the examples: the first heading is answered
    by the paragraph after the note, the second has no question mark, the
    third has nothing after it. *)
Example acme_faqs :
  fst (_scrape_faqs Stores.acme "https://www.acme-goods.com" [])
  = Ok [Faq "Do you ship?" "Yes."].
Proof. vm_compute. reflexivity. Qed.

(** *** Store name, social handles and phones at given pages *)

(** C8. The two examples hold: the title of the home page of Acme gives
    its name without the suffix, and a page without title, site name and
    image gives the name of the domain.  The contract does not: a site
    name made of white space is returned stripped, the empty string. *)
Theorem store_name_examples_and_blank :
  _extract_store_name Stores.acme_home "https://www.acme-goods.com" = "Acme Co"
  /\ _extract_store_name (Stores.document []) "https://www.acme-goods.com" = "Acme-Goods"
  /\ _extract_store_name Stores.blank_site_name "https://www.acme-goods.com" = "".
Proof. repeat split; vm_compute; reflexivity. Qed.

(** C4. A link to the profile gives the entry of the platform; a later
    link with a mail address then takes its place, because the second
    pattern of the platform is searched in the links again: the first match
    does not win. *)
Theorem social_handle_overwritten :
  _extract_social_handles Stores.profile_only !! "instagram"
  = Some (SocialLink "acmeshop" "https://instagram.com/acmeshop")
  /\ _extract_social_handles Stores.profile_then_mail !! "instagram"
     = Some (SocialLink "acme.com" "mailto:hi@acme.com").
Proof. split; vm_compute; reflexivity. Qed.

(** C7. On a page that says to call 555-123-4567 the pattern matches the
    number, with the space before it; the entry [phones] holds what the
    group of the pattern captured, the space alone. *)
Theorem phones_hold_the_prefix :
  matched_texts Patterns.phone_pattern (get_text Stores.phone_page) = [" 555-123-4567"]
  /\ homepage_contacts Stores.phone_page !! "phones" = Some (CList [" "])
  /\ match fst (_extract_contact_details Stores.acme Stores.phone_page
                  "https://www.acme-goods.com" []) with
     | Ok d => d !! "phones"
     | Exn _ => None
     end = Some (CList [" "]).
Proof. repeat split; vm_compute; reflexivity. Qed.

(** *** Where exceptions stop *)

Lemma scrape_products_absorbs w u : absorbs (_scrape_products w u).
Proof.
  intros log. unfold _scrape_products, try_except.
  match goal with |- context [?body log] => destruct (body log) as [[v | e] l] end.
  - eauto.
  - unfold ret. eauto.
Qed.

Lemma probe_absorbs {A} w u (page : string -> M (option A)) nothing path paths :
  (exists u', urljoin w u ("/" +:+ path) = Ok u') ->
  absorbs (probe w u page nothing false (path :: paths)).
Proof.
  intros (u' & Hjoin) log.
  pose proof (probe_spec w u page nothing (path :: paths) false log) as H.
  destruct (probe w u page nothing false (path :: paths) log) as [[a | e] l]; [eauto |].
  destruct H as (_ & _ & p & e' & [= <-] & H). congruence.
Qed.

(** A probe whose pages give nothing returns the empty value. *)
Lemma probe_nothing {A} w u (page : string -> M (option A)) nothing paths log :
  (forall u0 log0 a log1, page u0 log0 <> (Ok (Some a), log1)) ->
  forall a l, probe w u page nothing false paths log = (Ok a, l) -> a = nothing.
Proof.
  intros Hpage a l E.
  pose proof (probe_spec w u page nothing paths false log) as H. rewrite E in H.
  destruct H as [-> | (u0 & log0 & log1 & H)]; [reflexivity |].
  exfalso. eapply Hpage. exact H.
Qed.

Lemma page_needs_answer {A} w (k : response -> M (option A)) u0 log0 a log1 :
  no_answer w -> bind (http_get w u0) k log0 <> (Ok (Some a), log1).
Proof.
  intros Hno. unfold bind, http_get.
  destruct (Hno log0 u0) as [e ->]. discriminate.
Qed.

Lemma scrape_products_offline w u log :
  no_answer w -> fst (_scrape_products w u log) = Ok [].
Proof.
  intros Hno. unfold _scrape_products, try_except, bind, lift, http_get, ret.
  destruct (urljoin w u "/products.json") as [pu | e]; [| reflexivity].
  destruct (Hno log pu) as [e ->]. reflexivity.
Qed.

Lemma probe_offline {A} w u (page : string -> M (option A)) nothing path paths log :
  (exists u', urljoin w u ("/" +:+ path) = Ok u') ->
  (forall u0 log0 a log1, page u0 log0 <> (Ok (Some a), log1)) ->
  fst (probe w u page nothing false (path :: paths) log) = Ok nothing.
Proof.
  intros Hjoin Hpage.
  destruct (probe_absorbs w u page nothing path paths Hjoin log) as (a & l & E).
  rewrite E. cbn [fst]. f_equal. eapply probe_nothing; eassumption.
Qed.

(** The extraction after the guarded steps have returned. *)
Lemma extract_all_run w soup u log :
  joins_first_paths w u ->
  exists products privacy returns faqs contacts brand log',
    extract_all w soup u log =
    match _extract_important_links w soup u with
    | Ok links =>
        (Ok (<["important_links" := VLinks links]>
             (<["brand_context" := VStr brand]>
             (<["contact_details" := VContact contacts]>
             (<["social_handles" := VSocial (_extract_social_handles soup)]>
             (<["faqs" := VFaqs faqs]>
             (<["return_policy" := VStr returns]>
             (<["privacy_policy" := VStr privacy]>
             (<["hero_products" := VHeroProducts (_scrape_hero_products w soup u)]>
             (<["products" := VProducts products]>
             (initial_insights (_extract_store_name soup u) u)))))))))), log')
    | Exn e => (Exn e, log')
    end.
Proof.
  intros Hjoin. unfold joins_first_paths, first_paths in Hjoin.
  repeat match type of Hjoin with Forall _ (_ :: _) =>
    let H := fresh "Hj" in apply Forall_cons in Hjoin as [H Hjoin] end.
  unfold extract_all.
  destruct (scrape_products_absorbs w u log) as (products & l1 & E1).
  rewrite (bind_run _ _ _ _ _ E1).
  destruct (probe_absorbs w u (long_text_page w) "" "privacy"
              ["privacy-policy"; "policies/privacy-policy"] Hj l1) as (privacy & l2 & E2).
  rewrite (bind_run _ _ _ _ _ E2).
  destruct (probe_absorbs w u (long_text_page w) "" "return"
              ["refund"; "returns"; "refunds"; "shipping-returns"; "policies/refund-policy"]
              Hj0 l2) as (returns & l3 & E3).
  rewrite (bind_run _ _ _ _ _ E3).
  destruct (probe_absorbs w u (faq_page w) [] "faq"
              ["faqs"; "help"; "support"; "pages/faq"] Hj1 l3) as (faqs & l4 & E4).
  rewrite (bind_run _ _ _ _ _ E4).
  destruct (probe_absorbs w u (contact_page w) ∅ "contact"
              ["contact-us"; "pages/contact"; "pages/contact-us"] Hj2 l4)
    as (info & l5 & E5).
  assert (E5' : _extract_contact_details w soup u l4
                = (Ok (info ∪ homepage_contacts soup), l5)).
  { unfold _extract_contact_details. erewrite bind_run by exact E5. reflexivity. }
  rewrite (bind_run _ _ _ _ _ E5').
  destruct (probe_absorbs w u (long_text_page w) "" "about"
              ["about-us"; "pages/about"; "pages/about-us"; "our-story"; "pages/our-story"]
              Hj3 l5) as (brand & l6 & E6).
  rewrite (bind_run _ _ _ _ _ E6).
  exists products, privacy, returns, faqs, (info ∪ homepage_contacts soup), brand, l6.
  unfold bind, lift, ret.
  destruct (_extract_important_links w soup u); reflexivity.
Qed.

(** C3. The extractor of the important links has no handler: on a home
    page with a link that [urljoin] refuses it raises [ValueError], and
    [scrape_store] raises it too instead of returning a profile with an
    empty list of links.  The extractor of the hero products has a handler
    around the same call of [urljoin]: with such a link to a product it
    returns the empty list. *)
Theorem important_links_exception_propagates :
  _extract_important_links Stores.bad_link Stores.bad_link_home "https://shop.test"
  = Exn ValueError
  /\ fst (scrape_store Stores.bad_link "shop.test" []) = Exn ValueError
  /\ hero_info Stores.bad_link "https://shop.test"
       (Stores.a "http://[shop/products/anvil" [Text "Anvil"]) "http://[shop/products/anvil"
     = Exn ValueError
  /\ _scrape_hero_products Stores.bad_link Stores.bad_product_link "https://shop.test" = [].
Proof. repeat split; vm_compute; reflexivity. Qed.

(** X19. When [urljoin] accepts the first path of each probing
    extractor:
    - the extractors with a handler (the catalog, the two policies, the
      questions, the contact page, the brand context) never raise, whatever
      the network, the decoder, the parser and the text extractor do;
    - when every request raises, each of them returns its empty value;
    - with the home page fetched and parsed, [scrape_store] returns a
      profile unless the extractor of the important links raises; that
      extractor has no handler, and what it raises leaves [scrape_store] as
      every exception does there: [None] for a [RequestException], the
      exception itself otherwise. *)
Theorem exceptions_stop_at_handlers (w : World) (url : string) (log : list string) :
  joins_first_paths w (normalize url) ->
  (absorbs (_scrape_products w (normalize url))
   /\ absorbs (_scrape_privacy_policy w (normalize url))
   /\ absorbs (_scrape_return_policy w (normalize url))
   /\ absorbs (_scrape_faqs w (normalize url))
   /\ absorbs (_scrape_contact_page w (normalize url))
   /\ absorbs (_scrape_brand_context w (normalize url)))
  /\ (no_answer w ->
      fst (_scrape_products w (normalize url) log) = Ok []
      /\ fst (_scrape_privacy_policy w (normalize url) log) = Ok ""
      /\ fst (_scrape_return_policy w (normalize url) log) = Ok ""
      /\ fst (_scrape_faqs w (normalize url) log) = Ok []
      /\ fst (_scrape_contact_page w (normalize url) log) = Ok ∅
      /\ fst (_scrape_brand_context w (normalize url) log) = Ok "")
  /\ (forall r soup,
        session_get w log (normalize url) = Ok r -> status_code r = 200%Z ->
        html_parser w (content r) = Ok soup ->
        match _extract_important_links w soup (normalize url) with
        | Ok links =>
            exists d log', scrape_store w url log = (Ok (Some d), log')
                           /\ d !! "important_links" = Some (VLinks links)
        | Exn e => exists log', scrape_store w url log = (surfaced e, log')
        end).
Proof.
  intros Hjoin. pose proof Hjoin as Hj. unfold joins_first_paths, first_paths in Hj.
  repeat match type of Hj with Forall _ (_ :: _) =>
    let H := fresh "Hj" in apply Forall_cons in Hj as [H Hj] end.
  split; [| split].
  - repeat split;
      first [ apply scrape_products_absorbs | apply probe_absorbs; assumption ].
  - intros Hno. split; [by apply scrape_products_offline |].
    unfold _scrape_privacy_policy, _scrape_return_policy, _scrape_policy_page,
      _scrape_faqs, _scrape_contact_page, _scrape_brand_context.
    repeat split; (apply probe_offline; [assumption |]); intros;
      unfold long_text_page, faq_page, contact_page; by apply page_needs_answer.
  - intros r soup Hget Hst Hparse.
    rewrite scrape_store_unfold. cbv zeta. rewrite Hget, Hst, Hparse. cbn [Z.eqb negb].
    replace (Pos.eqb 200 200) with true by reflexivity. cbn [negb].
    destruct (extract_all_run w soup (normalize url) (log ++ [normalize url]) Hjoin)
      as (products & privacy & returns & faqs & contacts & brand & log' & ->).
    destruct (_extract_important_links w soup (normalize url)) as [links | e].
    + eexists _, log'. split; [reflexivity |]. apply lookup_insert_eq.
    + exists log'. reflexivity.
Qed.

Lemma exceptions_stop_at_handlers_bad_link :
  joins_first_paths Stores.bad_link (normalize "shop.test")
  /\ absorbs (_scrape_products Stores.bad_link (normalize "shop.test"))
  /\ exists log', scrape_store Stores.bad_link "shop.test" [] = (surfaced ValueError, log').
Proof.
  assert (Hj : joins_first_paths Stores.bad_link (normalize "shop.test")).
  { unfold joins_first_paths, first_paths.
    repeat (constructor; [eexists; vm_compute; reflexivity |]). constructor. }
  destruct (exceptions_stop_at_handlers Stores.bad_link "shop.test" [] Hj) as (HA & _ & HC).
  split; [exact Hj |]. split; [apply HA |].
  exact (HC (Response 200 "home") Stores.bad_link_home eq_refl eq_refl eq_refl).
Defined.


(** *** What holds of the social handles and of the store name *)



(** The store name is empty only when the site name is white space or the
    name made from the domain is empty. *)
Lemma store_name_empty_cases (soup : node) (website_url : string) :
  _extract_store_name soup website_url = "" ->
  (exists site_name c,
      Dom.find ["meta"] (attr_is "property" "og:site_name") soup = Some site_name
      /\ Dom.get "content" site_name = Some c /\ c <> "" /\ PyStr.strip c = "")
  \/ PyStr.title
       (PyStr.replace
          (PyStr.replace (PyStr.replace (netloc website_url) "www." "") ".com" "")
          ".myshopify.com" "") = "".
Proof.
  unfold _extract_store_name. cbv zeta.
  destruct (Dom.find ["title"] (fun _ => true) soup) as [title_tag |].
  1: destruct (PyStr.nonempty (Re.sub_empty Patterns.title_suffix
                                 (PyStr.strip (get_text title_tag)))) eqn:Et;
       [intros H; rewrite H in Et; discriminate |].
  all: destruct (Dom.find ["meta"] (attr_is "property" "og:site_name") soup)
         as [site_name |].
  all: try (destruct (Dom.get "content" site_name) as [c |] eqn:Ec;
            [destruct (PyStr.nonempty c) eqn:En;
             [intros H; left; exists site_name, c;
              repeat split; auto; by apply nonempty_true |] |]).
  all: destruct (Dom.find ["img"] (has_attr "alt") soup) as [logo |];
         [destruct (Dom.get "alt" logo) as [alt |];
          [destruct (PyStr.nonempty alt); cbn [andb];
           [destruct (PyStr.nonempty (PyStr.strip alt)) eqn:Ea; cbn [andb];
            [destruct (negb _); [intros H; rewrite H in Ea; discriminate |] |] |] |] |];
         intros H; right; exact H.
Qed.

End Theory.

(** ** Further properties of the code *)

Module More.
Import PyFloat Json Dom Scraper App Props Theory.

(** *** The log of the requests *)

Lemma extends_ret {A} (a : A) : extends (ret a).
Proof. intros log. exists []. cbn. by rewrite app_nil_r. Qed.

Lemma extends_raise {A} (e : exn) : extends (@raise A e).
Proof. intros log. exists []. cbn. by rewrite app_nil_r. Qed.

Lemma extends_lift {A} (r : result A) : extends (lift r).
Proof. intros log. exists []. cbn. by rewrite app_nil_r. Qed.

Lemma extends_http_get w u : extends (http_get w u).
Proof. intros log. exists [u]. reflexivity. Qed.

Lemma extends_bind {A B} (m : M A) (f : A -> M B) :
  extends m -> (forall a, extends (f a)) -> extends (bind m f).
Proof.
  intros Hm Hf log. unfold bind. destruct (Hm log) as [more Hmore].
  destruct (m log) as [[a | e] log1]; cbn [snd] in *; subst log1.
  - destruct (Hf a (log ++ more)) as [more' ->]. exists (more ++ more').
    by rewrite app_assoc.
  - eauto.
Qed.

Lemma extends_try_except {A} (m : M A) (h : exn -> M A) :
  extends m -> (forall e, extends (h e)) -> extends (try_except m h).
Proof.
  intros Hm Hh log. unfold try_except. destruct (Hm log) as [more Hmore].
  destruct (m log) as [[a | e] log1]; cbn [snd] in *; subst log1.
  - eauto.
  - destruct (Hh e (log ++ more)) as [more' ->]. exists (more ++ more').
    by rewrite app_assoc.
Qed.

(** The pages of the probing extractors make one request, for their URL. *)
Lemma long_text_page_log w u log : snd (long_text_page w u log) = log ++ [u].
Proof.
  unfold long_text_page, bind, http_get, lift, ret.
  destruct (session_get w log u) as [r |]; [| reflexivity].
  destruct (status_code r =? 200)%Z; [| reflexivity].
  destruct (trafilatura_extract w (content r)) as [[t |] |]; try reflexivity.
  by destruct (_ && _).
Qed.

Lemma faq_page_log w u log : snd (faq_page w u log) = log ++ [u].
Proof.
  unfold faq_page, bind, http_get, lift, ret.
  destruct (session_get w log u) as [r |]; [| reflexivity].
  destruct (status_code r =? 200)%Z; [| reflexivity].
  destruct (html_parser w (content r)) as [soup |]; [| reflexivity].
  by destruct (page_faqs soup).
Qed.

Lemma contact_page_log w u log : snd (contact_page w u log) = log ++ [u].
Proof.
  unfold contact_page, bind, http_get, lift, ret.
  destruct (session_get w log u) as [r |]; [| reflexivity].
  destruct (status_code r =? 200)%Z; [| reflexivity].
  destruct (trafilatura_extract w (content r)) as [[t |] |]; try reflexivity.
  by destruct (PyStr.nonempty t).
Qed.

(** A probe requests the URLs of its paths in their order, and nothing
    after the page it takes. *)
Lemma probe_log {A} w u (page : string -> M (option A)) (nothing : A) :
  (forall x log, snd (page x log) = log ++ [x]) ->
  forall paths bound log,
  exists n, snd (probe w u page nothing bound paths log) = log ++ joined w u (take n paths).
Proof.
  intros Hpage. induction paths as [| path paths IH]; intros bound log; cbn [probe].
  - exists 0. cbn. by rewrite app_nil_r.
  - destruct (urljoin w u ("/" +:+ path)) as [x | e] eqn:Ejoin.
    + unfold bind, try_except. specialize (Hpage x log).
      destruct (page x log) as [[[a |] | e] log1]; cbn [snd ret] in *; subst log1.
      * exists 1. cbn [take]. unfold joined. cbn [omap list_omap]. rewrite Ejoin.
        reflexivity.
      * destruct (IH true (log ++ [x])) as [n ->]. exists (S n).
        cbn [take]. unfold joined. cbn [omap list_omap]. rewrite Ejoin.
        by rewrite <- app_assoc.
      * destruct (IH true (log ++ [x])) as [n ->]. exists (S n).
        cbn [take]. unfold joined. cbn [omap list_omap]. rewrite Ejoin.
        by rewrite <- app_assoc.
    + destruct bound.
      * destruct (IH true log) as [n ->]. exists (S n).
        cbn [take]. unfold joined. cbn [omap list_omap]. rewrite Ejoin. reflexivity.
      * exists 0. cbn. by rewrite app_nil_r.
Qed.

(** X1. Each probing extractor requests URLs made of the base and of its
    own paths only, in the order of the paths, one at most for each path,
    and stops: its log is the old log followed by the URLs of the first [n]
    of its paths, for some [n]. *)
Theorem probes_follow_their_paths (w : World) (u : string) (log : list string) :
  (exists n, snd (_scrape_privacy_policy w u log)
             = log ++ joined w u (take n ["privacy"; "privacy-policy";
                                          "policies/privacy-policy"]))
  /\ (exists n, snd (_scrape_return_policy w u log)
                = log ++ joined w u (take n ["return"; "refund"; "returns"; "refunds";
                                             "shipping-returns"; "policies/refund-policy"]))
  /\ (exists n, snd (_scrape_faqs w u log)
                = log ++ joined w u (take n ["faq"; "faqs"; "help"; "support";
                                             "pages/faq"]))
  /\ (exists n, snd (_scrape_contact_page w u log)
                = log ++ joined w u (take n ["contact"; "contact-us"; "pages/contact";
                                             "pages/contact-us"]))
  /\ (exists n, snd (_scrape_brand_context w u log)
                = log ++ joined w u (take n ["about"; "about-us"; "pages/about";
                                             "pages/about-us"; "our-story";
                                             "pages/our-story"])).
Proof.
  repeat split.
  - apply probe_log, long_text_page_log.
  - apply probe_log, long_text_page_log.
  - apply probe_log, faq_page_log.
  - apply probe_log, contact_page_log.
  - apply probe_log, long_text_page_log.
Qed.

(** A probe ends on the page that gave its result, or after the pages of
    all its paths. *)
Lemma probe_trace {A} w u (page : string -> M (option A)) (nothing : A) :
  (forall x log, snd (page x log) = log ++ [x]) ->
  forall paths bound log,
    match probe w u page nothing bound paths log with
    | (Ok a, log') =>
        (a = nothing /\ log' = log ++ joined w u paths)
        \/ (exists x log0, log' = log0 ++ [x] /\ page x log0 = (Ok (Some a), log'))
    | (Exn e, _) => e = UnboundLocalError
    end.
Proof.
  intros Hpage. induction paths as [| path paths IH]; intros bound log; cbn [probe].
  - left. split; [reflexivity |]. cbn. by rewrite app_nil_r.
  - unfold joined. cbn [omap list_omap]. fold (joined w u paths).
    destruct (urljoin w u ("/" +:+ path)) as [x | e] eqn:Ejoin.
    + unfold bind, try_except. pose proof (Hpage x log) as Hlog.
      destruct (page x log) as [[[a |] | e] log1] eqn:Epage; cbn [snd ret] in *;
        subst log1.
      * right. exists x, log. split; [reflexivity | exact Epage].
      * specialize (IH true (log ++ [x])).
        destruct (probe w u page nothing true paths (log ++ [x])) as [[a | e] l];
          [| exact IH].
        destruct IH as [[-> ->] | IH]; [left | right; exact IH].
        split; [reflexivity |]. by rewrite <- app_assoc.
      * specialize (IH true (log ++ [x])).
        destruct (probe w u page nothing true paths (log ++ [x])) as [[a | e0] l];
          [| exact IH].
        destruct IH as [[-> ->] | IH]; [left | right; exact IH].
        split; [reflexivity |]. by rewrite <- app_assoc.
    + destruct bound; [apply IH | reflexivity].
Qed.

(** What a page of [_scrape_policy_page] gives when it gives a text. *)
Lemma long_text_page_Some w x log0 text log' :
  long_text_page w x log0 = (Ok (Some text), log') ->
  exists r t,
    session_get w log0 x = Ok r /\ status_code r = 200%Z
    /\ trafilatura_extract w (content r) = Ok (Some t)
    /\ text = PyStr.strip t /\ 100 < PyStr.len text.
Proof.
  unfold long_text_page, bind, http_get, lift, ret.
  destruct (session_get w log0 x) as [r |] eqn:Eget; [| discriminate].
  destruct (Z.eqb_spec (status_code r) 200) as [Est | Est]; [| discriminate].
  destruct (trafilatura_extract w (content r)) as [[t |] |] eqn:Etext; try discriminate.
  destruct (PyStr.nonempty t); cbn [andb]; [| discriminate].
  destruct (Nat.ltb_spec 100 (PyStr.len (PyStr.strip t))) as [Hlen | Hlen];
    [| discriminate].
  intros [= <- _]. exists r, t. repeat split; auto.
Qed.

(** [len] counts the characters, not the bytes: a text of 99 letters with
    an accent is not long enough. *)
Example long_text_page_counts_characters :
  let text := String.concat "" (repeat "é" 99) in
  String.length text = 198
  /\ PyStr.len text = 99
  /\ fst (long_text_page (Stores.serve [("https://shop.test/privacy", "p")]
                            (fun _ => Stores.document []) (fun _ => Exn ValueError)
                            (fun _ => Some text))
            "https://shop.test/privacy" [])
     = Ok None.
Proof. repeat split; vm_compute; reflexivity. Qed.

(** X2. [_scrape_policy_page], for any list of paths, and
    [_scrape_brand_context] return the empty string after having requested
    the URL of every path, or a text of more than 100 characters (code
    points, as [len] counts them): the stripped text that [trafilatura]
    extracted from the page requested last, which answered 200.  They raise nothing but the
    [UnboundLocalError] of their handler. *)
Theorem policy_text_is_long_or_empty (w : World) (u : string) (paths : list string)
        (log : list string) :
  let found (out : result string * list string) (tried : list string) :=
    match out with
    | (Ok text, log') =>
        (text = "" /\ log' = log ++ joined w u tried)
        \/ (exists x log0 r t,
              log' = log0 ++ [x]
              /\ session_get w log0 x = Ok r /\ status_code r = 200%Z
              /\ trafilatura_extract w (content r) = Ok (Some t)
              /\ text = PyStr.strip t /\ 100 < PyStr.len text)
    | (Exn e, _) => e = UnboundLocalError
    end in
  found (_scrape_policy_page w u paths log) paths
  /\ found (_scrape_brand_context w u log)
           ["about"; "about-us"; "pages/about"; "pages/about-us"; "our-story";
            "pages/our-story"].
Proof.
  assert (H : forall tried,
    match probe w u (long_text_page w) "" false tried log with
    | (Ok text, log') =>
        (text = "" /\ log' = log ++ joined w u tried)
        \/ (exists x log0 r t,
              log' = log0 ++ [x]
              /\ session_get w log0 x = Ok r /\ status_code r = 200%Z
              /\ trafilatura_extract w (content r) = Ok (Some t)
              /\ text = PyStr.strip t /\ 100 < PyStr.len text)
    | (Exn e, _) => e = UnboundLocalError
    end).
  { intros tried.
    pose proof (probe_trace w u (long_text_page w) "" (long_text_page_log w)
                  tried false log) as H.
    destruct (probe w u (long_text_page w) "" false tried log) as [[text | e] log'];
      [| exact H].
    destruct H as [H | (x & log0 & -> & H)]; [left; exact H | right].
    apply long_text_page_Some in H as (r & t & ? & ? & ? & ? & ?).
    exists x, log0, r, t. repeat split; auto. }
  split; apply H.
Qed.

Lemma joined_app w u (p1 p2 : list string) :
  joined w u (p1 ++ p2) = joined w u p1 ++ joined w u p2.
Proof.
  unfold joined. induction p1 as [| p p1 IH]; [reflexivity |].
  cbn [app omap list_omap]. fold (@omap list _ string string).
  destruct (urljoin w u ("/" +:+ p)); cbn; by rewrite IH.
Qed.

Lemma joined_length w u (paths : list string) :
  length (joined w u paths) <= length paths.
Proof.
  unfold joined. induction paths as [| p paths IH]; [reflexivity |].
  cbn [omap list_omap]. fold (@omap list _ string string).
  destruct (urljoin w u ("/" +:+ p)); cbn [length]; lia.
Qed.

Lemma asks_nothing {A} w u (m : M A) :
  (forall log, snd (m log) = log) -> asks w u [] m.
Proof.
  intros H log. exists []. rewrite H, app_nil_r. split; [reflexivity | constructor].
Qed.

Lemma asks_bind {A B} w u p1 p2 (m : M A) (f : A -> M B) :
  asks w u p1 m -> (forall a, asks w u p2 (f a)) -> asks w u (p1 ++ p2) (bind m f).
Proof.
  intros Hm Hf log. unfold bind. destruct (Hm log) as (more & Hmore & Hsub).
  destruct (m log) as [[a | e] log1]; cbn [snd] in *; subst log1.
  - destruct (Hf a (log ++ more)) as (more' & -> & Hsub').
    exists (more ++ more'). rewrite app_assoc, joined_app.
    split; [reflexivity | by apply sublist_app].
  - exists more. rewrite joined_app. split; [reflexivity |].
    by apply sublist_inserts_r.
Qed.

Lemma asks_probe {A} w u (page : string -> M (option A)) nothing paths :
  (forall x log, snd (page x log) = log ++ [x]) ->
  asks w u paths (probe w u page nothing false paths).
Proof.
  intros Hpage log. destruct (probe_log w u page nothing Hpage paths false log) as [n ->].
  exists (joined w u (take n paths)). split; [reflexivity |].
  rewrite <- (take_drop n paths) at 2. rewrite joined_app. by apply sublist_inserts_r.
Qed.

(** [_scrape_products] makes one request, for the feed, or none when
    [urljoin] refuses the path of the feed. *)
Lemma scrape_products_log w u log :
  snd (_scrape_products w u log) = log ++ joined w u ["products.json"].
Proof.
  unfold _scrape_products, try_except, bind, lift, http_get, ret, joined.
  cbn [omap list_omap].
  change ("/" +:+ "products.json") with "/products.json".
  destruct (urljoin w u "/products.json") as [pu |]; cbn; [| by rewrite app_nil_r].
  destruct (session_get w log pu) as [r |]; [| reflexivity].
  destruct (status_code r =? 200)%Z; [| reflexivity].
  destruct (response_json w (content r)) as [data |]; [| reflexivity].
  destruct (dict_get "products" (JArr []) data) as [feed |]; [| reflexivity].
  destruct (py_iter feed) as [items |]; [| reflexivity].
  by destruct (rmap (product_info w u) items).
Qed.

Lemma extract_all_asks w soup u : asks w u candidate_paths (extract_all w soup u).
Proof.
  unfold extract_all.
  change candidate_paths with
    (["products.json"]
     ++ ["privacy"; "privacy-policy"; "policies/privacy-policy"]
     ++ ["return"; "refund"; "returns"; "refunds"; "shipping-returns";
         "policies/refund-policy"]
     ++ ["faq"; "faqs"; "help"; "support"; "pages/faq"]
     ++ ["contact"; "contact-us"; "pages/contact"; "pages/contact-us"]
     ++ ["about"; "about-us"; "pages/about"; "pages/about-us"; "our-story";
         "pages/our-story"] ++ []).
  apply asks_bind.
  { intros log. exists (joined w u ["products.json"]).
    split; [apply scrape_products_log | reflexivity]. }
  intros products. apply asks_bind; [apply asks_probe, long_text_page_log |].
  intros privacy. apply asks_bind; [apply asks_probe, long_text_page_log |].
  intros returns. apply asks_bind; [apply asks_probe, faq_page_log |].
  intros faqs. apply asks_bind.
  { unfold _extract_contact_details.
    rewrite <- (app_nil_r ["contact"; "contact-us"; "pages/contact"; "pages/contact-us"]).
    apply asks_bind; [apply asks_probe, contact_page_log |].
    intros info. by apply asks_nothing. }
  intros contacts. apply asks_bind; [apply asks_probe, long_text_page_log |].
  intros brand. rewrite <- (app_nil_r []). apply asks_bind; by intros; apply asks_nothing.
Qed.

(** X3. [scrape_store] requests the home page first, under its normalized
    URL, and after it only URLs that [urljoin] makes of that URL and of the
    25 fixed paths of the extractors, in their order and one at most for
    each path: 26 requests at most, none for a link found in a page. *)
Theorem scrape_store_requests (w : World) (url : string) (log : list string) :
  exists rest,
    snd (scrape_store w url log) = log ++ normalize url :: rest
    /\ rest `sublist_of` joined w (normalize url) candidate_paths
    /\ length rest <= 25.
Proof.
  assert (Hlen : forall rest, rest `sublist_of` joined w (normalize url) candidate_paths ->
                              length rest <= 25).
  { intros rest H. apply sublist_length in H. etrans; [exact H |].
    etrans; [apply joined_length |]. reflexivity. }
  rewrite scrape_store_unfold. cbv zeta.
  assert (Hnil : [] `sublist_of` joined w (normalize url) candidate_paths)
    by apply sublist_nil_l.
  destruct (session_get w log (normalize url)) as [r | e].
  - destruct (negb (status_code r =? 200)%Z).
    { exists []. cbn [snd length]. repeat split; auto; lia. }
    destruct (html_parser w (content r)) as [soup | e].
    + destruct (extract_all_asks w soup (normalize url) (log ++ [normalize url]))
        as (more & Hmore & Hsub).
      destruct (extract_all w soup (normalize url) (log ++ [normalize url]))
        as [[d | e] l]; cbn [snd] in *; subst l; exists more;
        rewrite <- app_assoc; repeat split; auto.
    + exists []. cbn [snd length]. repeat split; auto; lia.
  - exists []. cbn [snd length]. repeat split; auto; lia.
Qed.

(** *** What the profile holds *)

(** X4. A profile that [scrape_store] returns is read from the home page
    that answered 200 under the normalized URL: [website_url] is that URL,
    and [store_name], [hero_products], [social_handles] and
    [important_links] are what the extractors give for the parsed home
    page; the extractor of the important links did not raise. *)
Theorem profile_reads_home_page (w : World) (url : string) (log : list string) :
  match fst (scrape_store w url log) with
  | Ok (Some d) =>
      exists r soup links,
        session_get w log (normalize url) = Ok r /\ status_code r = 200%Z
        /\ html_parser w (content r) = Ok soup
        /\ _extract_important_links w soup (normalize url) = Ok links
        /\ d !! "website_url" = Some (VStr (normalize url))
        /\ d !! "store_name" = Some (VStr (_extract_store_name soup (normalize url)))
        /\ d !! "hero_products"
           = Some (VHeroProducts (_scrape_hero_products w soup (normalize url)))
        /\ d !! "social_handles" = Some (VSocial (_extract_social_handles soup))
        /\ d !! "important_links" = Some (VLinks links)
  | _ => True
  end.
Proof.
  rewrite scrape_store_unfold. cbv zeta.
  destruct (session_get w log (normalize url)) as [r | e] eqn:Eget;
    [| by destruct (is_request_exception e)].
  destruct (Z.eqb_spec (status_code r) 200) as [Est | Est]; cbn [negb fst]; [| exact I].
  destruct (html_parser w (content r)) as [soup | e] eqn:Eparse;
    [| by destruct (is_request_exception e)].
  destruct (extract_all w soup (normalize url) (log ++ [normalize url]))
    as [[d | e] l] eqn:E; cbn [fst]; [| by destruct (is_request_exception e)].
  unfold extract_all in E.
  repeat (apply bind_ok in E; destruct E as (? & ? & ? & E)).
  apply ret_ok in E as [-> _].
  match goal with H : lift _ _ = (Ok ?x, _) |- _ =>
    unfold lift in H; injection H as Hlinks _; exists r, soup, x end.
  unfold initial_insights.
  repeat split; auto; lookup_field.
Qed.

(** *** The endpoint *)

Lemma scrape_store_Some_shape w url log d l :
  scrape_store w url log = (Ok (Some d), l) -> full_profile d.
Proof.
  rewrite scrape_store_unfold. cbv zeta.
  destruct (session_get w log (normalize url)) as [r | e];
    [| destruct (is_request_exception e); discriminate].
  destruct (negb (status_code r =? 200)%Z); [discriminate |].
  destruct (html_parser w (content r)) as [soup | e];
    [| destruct (is_request_exception e); discriminate].
  destruct (extract_all w soup (normalize url) (log ++ [normalize url]))
    as [[d' | e] l'] eqn:E; [| destruct (is_request_exception e); discriminate].
  intros [= <- _]. eapply extract_all_shape. exact E.
Qed.

(** X5. A request whose body is empty for Python (null, zero, false, an
    empty string, list or dictionary), or is a dictionary without
    [website_url], or with a string for it that is blank, is answered with
    the status 400 without any page being requested. *)
Theorem bad_request_fetches_nothing (w : World) (data : json) (log : list string) :
  truthy data = false
  \/ (exists o, data = JObj o
                /\ (Json.assoc "website_url" o = None
                    \/ exists s, Json.assoc "website_url" o = Some (JStr s)
                                 /\ PyStr.strip s = "")) ->
  exists r, fetch_insights w (Ok data) log = (Ok r, log) /\ r_status r = 400%Z.
Proof.
  unfold fetch_insights, read_website_url. cbn [rbind].
  intros [H | (o & -> & [H | (s & H & Hs)])].
  - rewrite H. cbn. eauto.
  - destruct (truthy (JObj o)); cbn [negb rbind py_in]; [| cbn; eauto].
    rewrite H. cbn. eauto.
  - destruct (truthy (JObj o)); cbn [negb rbind py_in py_item]; [| cbn; eauto].
    rewrite H. cbn [negb rbind py_strip]. rewrite Hs. cbn. eauto.
Qed.

Lemma bad_request_blank_url :
  exists r,
    fetch_insights Stores.acme (Ok (JObj [("website_url", JStr "  ")])) [] = (Ok r, [])
    /\ r_status r = 400%Z.
Proof.
  apply bad_request_fetches_nothing. right.
  exists [("website_url", JStr "  ")]. split; [reflexivity |].
  right. exists "  ". split; reflexivity.
Defined.

(** A URL made of the white space U+00A0 is blank as well. *)
Example bad_request_nbsp_url :
  fetch_insights Stores.acme (Ok (JObj [("website_url", JStr Stores.nbsp)])) []
  = (Ok empty_parameter, []).
Proof. vm_compute. reflexivity. Qed.

(** X6. For a body that names a URL that is not blank, the endpoint
    scrapes the stripped URL and tells the outcome by the status: 200 with
    the profile, which has its eleven fields, when [scrape_store] returns
    one; 401 when it returns [None]; 500 when it raises.  It raises nothing
    itself and requests what [scrape_store] requests. *)
Theorem status_tells_the_outcome (w : World) (get_json : result json) (s : string)
        (log : list string) :
  names_a_url get_json s -> PyStr.strip s <> "" ->
  snd (fetch_insights w get_json log) = snd (scrape_store w (PyStr.strip s) log)
  /\ match fst (scrape_store w (PyStr.strip s) log) with
     | Ok (Some d) =>
         fst (fetch_insights w get_json log) = Ok (Reply (Insights d) 200)
         /\ full_profile d
     | Ok None => fst (fetch_insights w get_json log) = Ok not_found_reply
     | Exn _ => fst (fetch_insights w get_json log) = Ok internal_error_reply
     end.
Proof.
  intros (o & -> & Ho) Hs. unfold fetch_insights, read_website_url.
  cbn [rbind py_in py_item]. rewrite Ho.
  assert (Ht : truthy (JObj o) = true) by (destruct o; [discriminate | reflexivity]).
  rewrite Ht. cbn [negb rbind py_strip].
  apply nonempty_true in Hs. rewrite Hs. cbn [negb].
  unfold try_except, bind, ret.
  pose proof (scrape_store_Some_shape w (PyStr.strip s) log) as Hshape.
  destruct (scrape_store w (PyStr.strip s) log) as [[[d |] | e] l]; cbn [fst snd] in *;
    split; try reflexivity.
  split; [reflexivity | by eapply Hshape].
Qed.

Lemma status_tells_the_outcome_401 :
  fst (fetch_insights (Stores.always 404)
         (Ok (JObj [("website_url", JStr " acme-goods.com ")])) [])
  = Ok not_found_reply.
Proof.
  assert (Hn : names_a_url (Ok (JObj [("website_url", JStr " acme-goods.com ")]))
                 " acme-goods.com ")
    by (eexists; split; reflexivity).
  assert (Hs : PyStr.strip " acme-goods.com " <> "") by (vm_compute; discriminate).
  destruct (status_tells_the_outcome (Stores.always 404) _ _ [] Hn Hs) as [_ H].
  replace (fst (scrape_store (Stores.always 404) (PyStr.strip " acme-goods.com ") []))
    with (@Ok (option (gmap string value)) None) in H by (vm_compute; reflexivity).
  exact H.
Defined.

Lemma read_named_url (get_json : result json) (s : string) :
  names_a_url get_json s -> read_website_url get_json = Ok (Some (PyStr.strip s)).
Proof.
  intros (o & -> & Ho). unfold read_website_url. cbn [rbind py_in py_item].
  assert (Ht : truthy (JObj o) = true) by (destruct o; [discriminate | reflexivity]).
  rewrite Ht, Ho. reflexivity.
Qed.

(** X7. The endpoint answers with one of the statuses 200, 400, 401 and
    500, and with the insights exactly when the status is 200.  It raises
    only [UnboundLocalError], from the handler that logs a URL never
    assigned: then no page was requested, and the body was not a dictionary
    with a string for [website_url]. *)
Theorem endpoint_outcomes (w : World) (get_json : result json) (log : list string) :
  match fst (fetch_insights w get_json log) with
  | Ok r =>
      r_status r ∈ [200; 400; 401; 500]%Z
      /\ (r_status r = 200%Z <-> exists d, r_payload r = Insights d)
  | Exn e =>
      e = UnboundLocalError
      /\ snd (fetch_insights w get_json log) = log
      /\ forall s, ~ names_a_url get_json s
  end.
Proof.
  assert (Hplain : forall error message st,
            st <> 200%Z ->
            st = 200%Z <-> exists d, Failure error message = Insights d).
  { intros error message st Hst. split; [contradiction | intros [d H]; discriminate]. }
  unfold fetch_insights.
  destruct (read_website_url get_json) as [[website_url |] | e] eqn:Eread.
  - destruct (PyStr.nonempty website_url); cbn [negb].
    + unfold try_except, bind, ret.
      destruct (scrape_store w website_url log) as [[[d |] | e] l]; cbn [fst].
      * split; [apply list_elem_of_In; cbn; auto 10 |]. cbn. split; eauto.
      * split; [apply list_elem_of_In; cbn; auto 10 | by apply Hplain].
      * split; [apply list_elem_of_In; cbn; auto 10 | by apply Hplain].
    + cbn. split; [apply list_elem_of_In; cbn; auto 10 | by apply Hplain].
  - cbn. split; [apply list_elem_of_In; cbn; auto 10 | by apply Hplain].
  - cbn. repeat split. intros s Hs. apply read_named_url in Hs. congruence.
Qed.

(** *** Important links *)

Lemma rmap_Ok {A B} (f : A -> result B) (l : list A) (bs : list B) :
  rmap f l = Ok bs -> Forall2 (fun a b => f a = Ok b) l bs.
Proof.
  revert bs. induction l as [| a l IH]; intros bs; cbn [rmap].
  - intros [= <-]. constructor.
  - destruct (f a) as [b |] eqn:Ea; cbn [rbind]; [| discriminate].
    destruct (rmap f l) as [bs' |]; cbn [rbind]; [| discriminate].
    intros [= <-]. constructor; auto.
Qed.










(** *** Social handles *)





(** *** Contact details *)

Lemma list_set_spec (l : list string) :
  forall seen,
    NoDup (list_set seen l)
    /\ forall x, x ∈ list_set seen l <-> x ∈ l /\ x ∉ seen.
Proof.
  assert (Hex : forall x seen, existsb (String.eqb x) seen = true <-> x ∈ seen).
  { intros x seen. rewrite existsb_exists. split.
    - intros (y & Hy & E). apply String.eqb_eq in E as ->. by apply list_elem_of_In.
    - intros H. exists x. split; [by apply list_elem_of_In | apply String.eqb_refl]. }
  induction l as [| y l IH]; intros seen; cbn [list_set].
  - split; [constructor |]. intros x. split; [intros H; inversion H | intros [H _]; inversion H].
  - destruct (existsb (String.eqb y) seen) eqn:E.
    + apply Hex in E. destruct (IH seen) as [Hnd Hin]. split; [exact Hnd |].
      intros x. rewrite Hin, elem_of_cons. split; [intros [? ?]; auto |].
      intros [[-> | H] Hs]; [contradiction | auto].
    + assert (Hy : y ∉ seen) by (intros H; apply Hex in H; congruence).
      destruct (IH (y :: seen)) as [Hnd Hin]. split.
      * constructor; [| exact Hnd]. intros H. apply Hin in H as [_ H]. apply H. left.
      * intros x. rewrite !elem_of_cons, Hin, not_elem_of_cons. split.
        -- intros [-> | (? & ? & ?)]; auto.
        -- intros [[-> | H] Hs]; [by left |].
           destruct (decide (x = y)) as [-> | Hne]; [by left | right; auto].
Qed.

(** The three entries [homepage_contacts] may set. *)
Lemma homepage_contacts_lookup (soup : node) :
  let page_text := get_text soup in
  let contact_emails :=
    List.filter (fun email => negb (unwanted email))
                (Re.findall Patterns.email_pattern page_text) in
  let phones := Re.findall Patterns.phone_pattern page_text in
  homepage_contacts soup !! "emails"
  = match contact_emails with
    | [] => None
    | _ => Some (CList (list_set [] contact_emails))
    end
  /\ homepage_contacts soup !! "phones"
     = match phones with [] => None | _ => Some (CList (list_set [] phones)) end
  /\ homepage_contacts soup !! "address"
     = CStr <$> find_address soup ["address"; "location"; "office"; "store location"]
  /\ forall k, k <> "emails" -> k <> "phones" -> k <> "address" ->
               homepage_contacts soup !! k = None.
Proof.
  intros page_text contact_emails phones. unfold homepage_contacts.
  fold page_text. change (List.filter _ (Re.findall Patterns.email_pattern page_text))
    with contact_emails. fold phones.
  destruct contact_emails as [| e es], phones as [| p ps],
    (find_address soup ["address"; "location"; "office"; "store location"]) as [a |];
    cbn [fmap option_fmap option_map];
    (split; [| split; [| split]]);
    try (intros k H1 H2 H3);
    rewrite ?lookup_insert_eq;
    repeat first [ rewrite lookup_insert_ne by congruence
                 | rewrite lookup_insert_eq ];
    rewrite ?lookup_empty; reflexivity.
Qed.

(** X10. The entries [_extract_contact_details] reads in a home page whose
    text is ASCII: [emails] is there exactly when the text has an address
    without the words noreply, no-reply, admin and webmaster, whatever the
    case, and holds every such address once and nothing else; [phones] is
    there exactly when the phone pattern matches, and holds once each of
    what [re.findall] returns for it; [address] holds a text of more than
    20 characters, as [len] counts them; there is no other entry. *)
Theorem homepage_contacts_entries (soup : node) :
  PyStr.is_ascii (get_text soup) = true ->
  let found := Re.findall Patterns.email_pattern (get_text soup) in
  let dialled := Re.findall Patterns.phone_pattern (get_text soup) in
  (match homepage_contacts soup !! "emails" with
   | Some v => exists l, v = CList l /\ NoDup l
                         /\ forall x, x ∈ l <-> x ∈ found /\ unwanted x = false
   | None => forall x, x ∈ found -> unwanted x = true
   end)
  /\ (match homepage_contacts soup !! "phones" with
      | Some v => exists l, v = CList l /\ NoDup l /\ forall x, x ∈ l <-> x ∈ dialled
      | None => dialled = []
      end)
  /\ (forall v, homepage_contacts soup !! "address" = Some v ->
                exists s, v = CStr s /\ 20 < PyStr.len s)
  /\ (forall k v, homepage_contacts soup !! k = Some v ->
                  k ∈ ["emails"; "phones"; "address"]).
Proof.
  intros _ found dialled.
  destruct (homepage_contacts_lookup soup) as (He & Hp & Ha & Hk). cbv zeta in He, Hp.
  fold found in He. fold dialled in Hp. rewrite He, Hp.
  assert (Hf : forall x, x ∈ List.filter (fun email => negb (unwanted email)) found
                         <-> x ∈ found /\ unwanted x = false).
  { intros x. rewrite !list_elem_of_In, List.filter_In, negb_true_iff. reflexivity. }
  split; [| split; [| split]].
  - destruct (List.filter _ found) as [| e es] eqn:E.
    + intros x Hx. destruct (unwanted x) eqn:Eu; [reflexivity |].
      assert (H : x ∈ @nil string) by (apply Hf; auto). inversion H.
    + destruct (list_set_spec (e :: es) []) as [Hnd Hin].
      eexists. split; [reflexivity |]. split; [exact Hnd |].
      intros x. rewrite Hin, Hf. split; [by intros [? _] |].
      intros H. split; [exact H | apply not_elem_of_nil].
  - destruct dialled as [| p ps]; [reflexivity |].
    destruct (list_set_spec (p :: ps) []) as [Hnd Hin].
    eexists. split; [reflexivity |]. split; [exact Hnd |].
    intros x. rewrite Hin. split; [by intros [? _] |].
    intros H. split; [exact H | apply not_elem_of_nil].
  - intros v. rewrite Ha.
    generalize ["address"; "location"; "office"; "store location"].
    intros keywords. induction keywords as [| keyword keywords IH]; cbn [find_address];
      [discriminate |].
    destruct (find_text (Patterns.literal_i keyword) soup) as [address_elem |]; [| exact IH].
    destruct (Nat.ltb_spec 20 (PyStr.len
                (PyStr.strip (get_text (Dom.parent address_elem))))) as [Hlen | Hlen];
      [| exact IH].
    intros [= <-]. eauto.
  - intros k v Hkv.
    destruct (decide (k = "emails")) as [-> | H1]; [left |].
    destruct (decide (k = "phones")) as [-> | H2]; [right; left |].
    destruct (decide (k = "address")) as [-> | H3]; [right; right; left |].
    rewrite (Hk k H1 H2 H3) in Hkv. discriminate.
Qed.

(** The address is measured in characters, not in bytes. *)
Example address_counts_characters :
  let page := Stores.document [Tag "p" [] [Text "office: ééééééé"]] in
  String.length (get_text page) = 22
  /\ homepage_contacts page !! "address" = None.
Proof. split; vm_compute; reflexivity. Qed.

(** The page with a phone number. *)
Lemma homepage_contacts_entries_phone_page :
  let soup := Stores.phone_page in
  let found := Re.findall Patterns.email_pattern (get_text soup) in
  let dialled := Re.findall Patterns.phone_pattern (get_text soup) in
  (match homepage_contacts soup !! "emails" with
   | Some v => exists l, v = CList l /\ NoDup l
                         /\ forall x, x ∈ l <-> x ∈ found /\ unwanted x = false
   | None => forall x, x ∈ found -> unwanted x = true
   end)
  /\ (match homepage_contacts soup !! "phones" with
      | Some v => exists l, v = CList l /\ NoDup l /\ forall x, x ∈ l <-> x ∈ dialled
      | None => dialled = []
      end)
  /\ (forall v, homepage_contacts soup !! "address" = Some v ->
                exists s, v = CStr s /\ 20 < PyStr.len s)
  /\ (forall k v, homepage_contacts soup !! k = Some v ->
                  k ∈ ["emails"; "phones"; "address"]).
Proof. apply (homepage_contacts_entries Stores.phone_page). reflexivity. Defined.

Lemma contact_info_lookup (text_content : string) :
  forall k v, contact_info_of text_content !! k = Some v ->
              k ∈ ["contact_page_emails"; "contact_page_phones"].
Proof.
  intros k v. unfold contact_info_of.
  destruct (decide (k = "contact_page_emails")) as [-> | H1]; [intros _; left |].
  destruct (decide (k = "contact_page_phones")) as [-> | H2]; [intros _; right; left |].
  destruct (Re.findall Patterns.email_pattern text_content),
    (Re.findall Patterns.phone_pattern text_content);
    repeat rewrite lookup_insert_ne by congruence;
    rewrite lookup_empty; discriminate.
Qed.

Lemma contact_page_Some w x log0 info log' :
  contact_page w x log0 = (Ok (Some info), log') ->
  exists r t,
    session_get w log0 x = Ok r /\ status_code r = 200%Z
    /\ trafilatura_extract w (content r) = Ok (Some t) /\ t <> ""
    /\ info = contact_info_of t.
Proof.
  unfold contact_page, bind, http_get, lift, ret.
  destruct (session_get w log0 x) as [r |] eqn:Eget; [| discriminate].
  destruct (Z.eqb_spec (status_code r) 200) as [Est | Est]; [| discriminate].
  destruct (trafilatura_extract w (content r)) as [[t |] |] eqn:Etext; try discriminate.
  destruct (PyStr.nonempty t) eqn:En; [| discriminate].
  intros [= <- _]. exists r, t. repeat split; auto. by apply nonempty_true.
Qed.

(** X11. [_extract_contact_details] keeps what it read in the home page
    under [emails], [phones] and [address], and adds what the contact page
    gave under [contact_page_emails] and [contact_page_phones], read in the
    text of a contact page that answered 200 with a text; it has no other
    entry.  It raises nothing but the [UnboundLocalError] of the
    handler of the contact page. *)
Theorem contact_details_merge (w : World) (soup : node) (u : string) (log : list string) :
  match fst (_extract_contact_details w soup u log) with
  | Ok d =>
      (forall k, k ∈ ["emails"; "phones"; "address"] ->
                 d !! k = homepage_contacts soup !! k)
      /\ (forall k v, d !! k = Some v ->
                      k ∈ ["emails"; "phones"; "address";
                           "contact_page_emails"; "contact_page_phones"])
      /\ (forall k v, k ∈ ["contact_page_emails"; "contact_page_phones"] ->
                      d !! k = Some v ->
                      exists x log0 r t,
                        session_get w log0 x = Ok r /\ status_code r = 200%Z
                        /\ trafilatura_extract w (content r) = Ok (Some t) /\ t <> ""
                        /\ contact_info_of t !! k = Some v)
  | Exn e => e = UnboundLocalError
  end.
Proof.
  unfold _extract_contact_details, _scrape_contact_page, bind.
  pose proof (probe_trace w u (contact_page w) ∅ (contact_page_log w)
                ["contact"; "contact-us"; "pages/contact"; "pages/contact-us"] false log)
    as H.
  destruct (probe w u (contact_page w) ∅ false
              ["contact"; "contact-us"; "pages/contact"; "pages/contact-us"] log)
    as [[info | e] l]; cbn [fst ret]; [| exact H].
  destruct (homepage_contacts_lookup soup) as (_ & _ & _ & Hhome). 
  assert (Hinfo : info = ∅ \/ exists x log0 r t,
             session_get w log0 x = Ok r /\ status_code r = 200%Z
             /\ trafilatura_extract w (content r) = Ok (Some t) /\ t <> ""
             /\ info = contact_info_of t).
  { destruct H as [[-> _] | (x & log0 & _ & H)]; [by left | right].
    apply contact_page_Some in H as (r & t & ? & ? & ? & ? & ?). by exists x, log0, r, t. }
  assert (Hkeys : forall k v, info !! k = Some v ->
                              k ∈ ["contact_page_emails"; "contact_page_phones"]).
  { intros k v Hk. destruct Hinfo as [-> | (x & log0 & r & t & _ & _ & _ & _ & ->)].
    - rewrite lookup_empty in Hk. discriminate.
    - by eapply contact_info_lookup. }
  assert (Hpage : forall k, k ∈ ["contact_page_emails"; "contact_page_phones"] ->
                            homepage_contacts soup !! k = None).
  { intros k Hk. apply Hhome; intros ->;
      repeat (apply elem_of_cons in Hk as [Hk | Hk]; [discriminate |]); inversion Hk. }
  split; [| split].
  - intros k Hk. apply lookup_union_r.
    destruct (info !! k) as [v |] eqn:E; [| reflexivity].
    apply Hkeys in E.
    repeat (apply elem_of_cons in Hk as [-> | Hk];
            [repeat (apply elem_of_cons in E as [E | E]; [discriminate |]); inversion E |]).
    inversion Hk.
  - intros k v Hk. apply lookup_union_Some_raw in Hk as [Hk | [_ Hk]].
    + apply Hkeys in Hk. apply elem_of_cons in Hk as [-> | Hk];
        [do 3 right; left |].
      apply elem_of_cons in Hk as [-> | Hk]; [do 4 right; left | inversion Hk].
    + destruct (decide (k = "emails")) as [-> | H1]; [left |].
      destruct (decide (k = "phones")) as [-> | H2]; [right; left |].
      destruct (decide (k = "address")) as [-> | H3]; [right; right; left |].
      rewrite (Hhome k H1 H2 H3) in Hk. discriminate.
  - intros k v Hk Hkv. apply lookup_union_Some_raw in Hkv as [Hkv | [_ Hkv]].
    + destruct Hinfo as [-> | (x & log0 & r & t & ? & ? & ? & ? & ->)].
      * rewrite lookup_empty in Hkv. discriminate.
      * by exists x, log0, r, t.
    + rewrite (Hpage k Hk) in Hkv. discriminate.
Qed.

(** *** The catalog *)

Lemma catalog_is_all_or_nothing_raw (w : World) (u : string) (log : list string) :
  exists products,
    fst (_scrape_products w u log) = Ok products
    /\ (products = []
        \/ exists items,
             feed_items w u log items
             /\ Forall2 (fun item p => product_info w u item = Ok p) items products).
Proof.
  unfold _scrape_products, try_except, bind, lift, http_get, ret, feed_items.
  destruct (urljoin w u "/products.json") as [pu |] eqn:E1; [| by exists []; auto].
  destruct (session_get w log pu) as [r |] eqn:E2; [| by exists []; auto].
  destruct (Z.eqb_spec (status_code r) 200) as [E3 | E3]; [| by exists []; auto].
  destruct (response_json w (content r)) as [data |] eqn:E4; [| by exists []; auto].
  destruct (dict_get "products" (JArr []) data) as [feed |] eqn:E5; [| by exists []; auto].
  destruct (py_iter feed) as [items |] eqn:E6; [| by exists []; auto].
  destruct (rmap (product_info w u) items) as [products |] eqn:E7; [| by exists []; auto].
  exists products. split; [reflexivity | right]. exists items. split.
  - exists pu, r, data, feed. repeat split; auto.
  - by apply rmap_Ok.
Qed.

(** X12. [_scrape_products] never raises, and it returns all of the feed
    or nothing: the empty list, or one product for each item of a feed that
    was fetched with the status 200 and decoded, in the order of the feed,
    every item having been converted without an exception. *)
Theorem catalog_is_all_or_nothing (w : World) (u : string) (log : list string) :
  exists products,
    fst (_scrape_products w u log) = Ok products
    /\ (products = []
        \/ exists items,
             feed_items w u log items
             /\ Forall2 (fun item p => product_info w u item = Ok p) items products).
Proof. apply catalog_is_all_or_nothing_raw. Qed.

Lemma tags_not_text_raise w u item :
  tags_not_text item -> product_info w u item = Exn AttributeError.
Proof.
  intros (o & t & -> & Ho & Ht & Hs). unfold product_info. cbn [dict_get rbind].
  rewrite Ho. cbn [default from_option id]. rewrite Ht.
  destruct t; try reflexivity. by destruct (Hs s).
Qed.

(** X13. One product whose tags are there and are not a string (a list of
    tags, as in the feed of a Shopify store) empties the catalog: the
    conversion of that product raises, and [_scrape_products] returns the
    empty list for the whole feed. *)
Theorem listed_tags_empty_the_catalog (w : World) (u : string) (log : list string)
        (items : list json) (item : json) :
  feed_items w u log items -> item ∈ items -> tags_not_text item ->
  fst (_scrape_products w u log) = Ok [].
Proof.
  intros Hfeed Hin Htags.
  destruct (catalog_is_all_or_nothing_raw w u log) as (products & -> & H).
  destruct H as [-> | (items' & Hfeed' & Hall)]; [reflexivity |].
  assert (items' = items) as ->.
  { destruct Hfeed as (pu & r & data & feed & E1 & E2 & _ & E4 & E5 & E6).
    destruct Hfeed' as (pu' & r' & data' & feed' & E1' & E2' & _ & E4' & E5' & E6').
    congruence. }
  exfalso. apply tags_not_text_raise with (w := w) (u := u) in Htags.
  clear Hfeed Hfeed'. induction Hall as [| x p items products Hx _ IH]; [inversion Hin |].
  apply elem_of_cons in Hin as [-> | Hin]; [congruence | auto].
Qed.

Lemma listed_tags_empty_the_catalog_shop :
  fst (_scrape_products Stores.listed_tags "https://shop.test" []) = Ok [].
Proof.
  eapply (listed_tags_empty_the_catalog Stores.listed_tags "https://shop.test" []
            _ (JObj [("id", JInt 7); ("title", JStr "Anvil");
                     ("handle", JStr "anvil");
                     ("tags", JArr [JStr "iron"; JStr "heavy"]);
                     ("variants", JArr [JObj [("price", JStr "10.00")]])])).
  - exists "https://shop.test/products.json", (Response 200 "feed"),
      Stores.listed_tags_feed, (JArr [JObj [("id", JInt 7); ("title", JStr "Anvil");
                     ("handle", JStr "anvil");
                     ("tags", JArr [JStr "iron"; JStr "heavy"]);
                     ("variants", JArr [JObj [("price", JStr "10.00")]])]]).
    repeat split; reflexivity.
  - left.
  - eexists _, (JArr [JStr "iron"; JStr "heavy"]).
    repeat split; try reflexivity. discriminate.
Defined.

(** X14. [_extract_price_range] gives the empty map for variants that are
    empty for Python (no list, an empty list), and never a map with one
    bound only: what it returns is the empty map or the two bounds.  The
    upper bound is never less than the lower one: the lower one is less
    than or equal to the upper one, or, when the first price is NaN, both
    are that NaN.  It raises only for variants that are not empty. *)
Theorem price_range_is_ordered (w : World) (variants : json) :
  (truthy variants = false -> _extract_price_range w variants = Ok ∅)
  /\ match _extract_price_range w variants with
     | Ok m =>
         m = ∅
         \/ exists lo hi,
              m = <["max_price" := hi]> (<["min_price" := lo]> ∅)
              /\ flt hi lo = false
              /\ (fle lo hi = true \/ (lo = FNaN /\ hi = FNaN))
     | Exn _ => truthy variants = true
     end.
Proof.
  unfold _extract_price_range. split; [intros ->; reflexivity |].
  destruct (truthy variants); cbn [negb]; [| by left].
  destruct (py_iter variants) as [vs |]; cbn [rbind]; [| reflexivity].
  destruct (rmap _ vs) as [prices |]; cbn [rbind]; [| reflexivity].
  destruct (concat prices) as [| q qs]; [by left | right].
  exists (py_min q qs), (py_max q qs). split; [reflexivity |].
  destruct (py_min_inv qs q) as (_ & Hlo_nan & Hlo).
  destruct (py_max_inv qs q) as (_ & Hhi_nan & Hhi).
  destruct (is_nan q) eqn:E.
  - rewrite (Hlo_nan eq_refl), (Hhi_nan eq_refl). destruct q; try discriminate.
    split; [reflexivity | by right].
  - destruct (Hlo eq_refl) as [H1 _]. destruct (Hhi eq_refl) as [H2 _].
    pose proof (fle_trans _ _ _ H1 H2) as H.
    split; [by apply fle_not_flt | by left].
Qed.

(** *** The URL and the name of the store *)

Lemma chars_append (s1 s2 : string) :
  PyStr.chars (s1 +:+ s2) = PyStr.chars s1 ++ PyStr.chars s2.
Proof.
  unfold PyStr.chars. induction s1 as [| a s1 IH]; [reflexivity |].
  cbn. by rewrite <- IH.
Qed.

Lemma is_prefix_app (p l : list ascii) : PyStr.is_prefix p (p ++ l) = true.
Proof.
  induction p as [| a p IH]; [reflexivity |].
  cbn. by rewrite Ascii.eqb_refl, IH.
Qed.

(** X15. The URL [scrape_store] works with always has a scheme: it starts
    with http:// or with https://.  A URL that has one is left as it is,
    so that normalizing twice changes nothing. *)
Theorem normalize_gives_a_scheme (website_url : string) :
  PyStr.startswith (normalize website_url) "http://"
  || PyStr.startswith (normalize website_url) "https://" = true
  /\ normalize (normalize website_url) = normalize website_url.
Proof.
  assert (H : PyStr.startswith (normalize website_url) "http://"
              || PyStr.startswith (normalize website_url) "https://" = true).
  { unfold normalize.
    destruct (PyStr.startswith website_url "http://"
              || PyStr.startswith website_url "https://") eqn:E; [exact E |].
    apply orb_true_iff. right. unfold PyStr.startswith.
    rewrite chars_append. apply is_prefix_app. }
  split; [exact H |].
  unfold normalize at 1. by rewrite H.
Qed.

(** X16. [_extract_store_name] returns a name that is not empty whenever
    the name made of the domain is not empty and the page has no site name
    made of white space only. *)
Theorem store_name_is_not_empty (soup : node) (website_url : string) :
  domain_name website_url <> "" ->
  (forall site_name c,
      Dom.find ["meta"] (attr_is "property" "og:site_name") soup = Some site_name ->
      Dom.get "content" site_name = Some c -> c <> "" -> PyStr.strip c <> "") ->
  _extract_store_name soup website_url <> "".
Proof.
  intros Hdomain Hmeta Hname.
  apply store_name_empty_cases in Hname
    as [(site_name & c & Hfind & Hget & Hc & Hstrip) | Hname].
  - by apply (Hmeta site_name c).
  - by apply Hdomain.
Qed.

Lemma store_name_is_not_empty_acme :
  _extract_store_name Stores.profile_only "https://www.acme-goods.com" <> "".
Proof.
  apply store_name_is_not_empty.
  - vm_compute. discriminate.
  - intros site_name c H. vm_compute in H. discriminate.
Defined.

(** A site name made of the white space U+00A0 is returned stripped. *)
Example store_name_nbsp :
  _extract_store_name Stores.nbsp_site_name "https://www.acme-goods.com" = "".
Proof. vm_compute. reflexivity. Qed.

(** *** Questions and hero products, step by step *)

Lemma faq_page_Some w x log0 faqs log' :
  faq_page w x log0 = (Ok (Some faqs), log') ->
  exists soup, page_parsed w x soup /\ faqs = page_faqs soup /\ faqs <> [].
Proof.
  unfold faq_page, bind, http_get, lift, ret.
  destruct (session_get w log0 x) as [r |] eqn:Eget; [| discriminate].
  destruct (Z.eqb_spec (status_code r) 200) as [Est | Est]; [| discriminate].
  destruct (html_parser w (content r)) as [soup |] eqn:Eparse; [| discriminate].
  destruct (page_faqs soup) as [| f fs] eqn:E; [discriminate |].
  intros [= <- _]. exists soup. repeat split; [| by rewrite E | discriminate].
  exists log0, r. auto.
Qed.

(** X17. [_scrape_faqs] goes on to the next path as long as a page gives
    no question: it returns the empty list after having requested the URL
    of each of its five paths, or the questions of the page it requested
    last, which answered 200 and has at least one. *)
Theorem faqs_of_the_first_page_with_some (w : World) (u : string) (log : list string) :
  match _scrape_faqs w u log with
  | (Ok faqs, log') =>
      (faqs = []
       /\ log' = log ++ joined w u ["faq"; "faqs"; "help"; "support"; "pages/faq"])
      \/ (exists x log0 soup,
            log' = log0 ++ [x] /\ page_parsed w x soup
            /\ faqs = page_faqs soup /\ faqs <> [])
  | (Exn e, _) => e = UnboundLocalError
  end.
Proof.
  unfold _scrape_faqs.
  pose proof (probe_trace w u (faq_page w) [] (faq_page_log w)
                ["faq"; "faqs"; "help"; "support"; "pages/faq"] false log) as H.
  destruct (probe w u (faq_page w) [] false
              ["faq"; "faqs"; "help"; "support"; "pages/faq"] log) as [[faqs | e] log'];
    [| exact H].
  destruct H as [H | (x & log0 & -> & H)]; [left; exact H | right].
  apply faq_page_Some in H as (soup & ? & ? & ?). by exists x, log0, soup.
Qed.

(** X18. [_scrape_hero_products] goes through the first six links to a
    product, takes each target once, at its first link, and gives the
    entry of every such link that has a title or an image, up to the first
    of them whose target [urljoin] refuses: the entries before that link
    are kept, the links after it are not looked at. *)
Theorem hero_products_until_refused (w : World) (soup : node) (u : string) :
  _scrape_hero_products w soup u
  = entries_until_refused w u (new_links ∅ (take 6 (product_links soup))).
Proof.
  unfold _scrape_hero_products.
  rewrite hero_loop_entries by apply Forall_take, product_links_have_href.
  reflexivity.
Qed.

End More.
